(** * gulp-tasks: the helpers and the task bodies of [src/index.js]

    A shallow embedding of [adaptPath], [buildDone] and the tasks that
    [runner] registers (write-build-done, start, restart), with the Node.js
    objects they touch: the file system, child processes and their event
    listeners, the console, and the variable [process] that the tasks of
    [runner] share.

    The function expressions that the tasks hand to Node.js are named
    constructors of [callback]; [run_callback] gives their bodies. What
    Node.js and the task runner do is modelled as far as the tasks depend
    on it:
    - [fs.writeFileSync] converts data that is not a buffer to a string, as
      it does in the Node.js versions this task runner works with;
    - [spawn] is modelled where the system creates the process;
    - [gulp.start(name)] runs the body registered under [name];
    - events may be reported in any order. *)

From Stdlib Require Import ZArith Lia Ascii String.
From stdpp Require Import base option list strings gmap pretty.

Local Open Scope string_scope.
Local Open Scope list_scope.

#[local] Set Warnings "-register-all".

(** ** JavaScript values *)

Module JS.

(** Numbers as far as this program converts to them: integers and NaN. *)
Inductive number :=
| NaN
| Num (z : Z).

Inductive value :=
| VUndefined
| VNull
| VBool (b : bool)
| VNumber (n : number)
| VBigInt (z : Z)
| VString (s : string)
| VSymbol (id : nat)
| VFunction
| VArray (elems : list value)
| VObject.

Inductive errno := EACCES | ENOENT | EROFS.

(** Exceptions raised by the program or by the runtime; a failed system call
    raises a [SystemError]. *)
Inductive exn :=
| Error (msg : string)
| TypeError (msg : string)
| SystemError (code : errno) (syscall path : string).

Inductive completion (A : Type) :=
| Normal (a : A)
| Throw (e : exn).
Arguments Normal {A} a.
Arguments Throw {A} e.

(** The [typeof] operator: arrays and [null] are objects. *)
Definition typeof (v : value) : string :=
  match v with
  | VUndefined => "undefined"
  | VNull => "object"
  | VBool _ => "boolean"
  | VNumber _ => "number"
  | VBigInt _ => "bigint"
  | VString _ => "string"
  | VSymbol _ => "symbol"
  | VFunction => "function"
  | VArray _ => "object"
  | VObject => "object"
  end.

(** ToBoolean. *)
Definition truthy (v : value) : bool :=
  match v with
  | VUndefined | VNull => false
  | VBool b => b
  | VNumber NaN => false
  | VNumber (Num z) => negb (z =? 0)%Z
  | VBigInt z => negb (z =? 0)%Z
  | VString s => negb (String.eqb s "")
  | VSymbol _ | VFunction | VArray _ | VObject => true
  end.

(** The prefix operator [!]. *)
Definition not (v : value) : bool := negb (truthy v).

Definition is_space (a : ascii) : bool :=
  let n := nat_of_ascii a in
  Nat.eqb n 32 || (Nat.leb 9 n && Nat.leb n 13).

Definition digit_of (a : ascii) : option Z :=
  let n := nat_of_ascii a in
  if Nat.leb 48 n && Nat.leb n 57 then Some (Z.of_nat (n - 48)) else None.

Fixpoint ltrim (s : string) : string :=
  match s with
  | String a s' => if is_space a then ltrim s' else s
  | EmptyString => EmptyString
  end.

(** Reads decimal digits; what follows them may only be white space. *)
Fixpoint digits (acc : Z) (s : string) : number :=
  match s with
  | EmptyString => Num acc
  | String a s' =>
      match digit_of a with
      | Some d => digits (10 * acc + d) s'
      | None => if String.eqb (ltrim s) "" then Num acc else NaN
      end
  end.

Definition unsigned (s : string) : number :=
  match s with
  | String a _ => match digit_of a with Some _ => digits 0 s | None => NaN end
  | EmptyString => NaN
  end.

Definition negate (n : number) : number :=
  match n with
  | NaN => NaN
  | Num z => Num (- z)
  end.

(** ToNumber on a string, for the signed decimal integer literals and the
    blank string. The fractional, exponent and radix-prefixed literal forms
    are not read (they come out as NaN): the one string this program
    converts is a fixed word, which is no numeric literal of any form. *)
Definition string_to_number (s : string) : number :=
  match ltrim s with
  | EmptyString => Num 0
  | String "+" s' => unsigned s'
  | String "-" s' => negate (unsigned s')
  | String _ _ as t => unsigned t
  end.

Definition bool_to_number (b : bool) : number := Num (if b then 1 else 0).

(** Number::equal: NaN equals nothing. *)
Definition number_eqb (m n : number) : bool :=
  match m, n with
  | Num x, Num y => (x =? y)%Z
  | _, _ => false
  end.

(** The operator [==] at the operand types it has in this program: two
    strings are compared as they are; a boolean and a string are both
    converted to numbers. *)
Definition eq_string_string (s t : string) : bool := String.eqb s t.

Definition eq_bool_string (b : bool) (t : string) : bool :=
  number_eqb (bool_to_number b) (string_to_number t).

End JS.

Import JS.

(** ** [adaptPath] *)

(** [function adaptPath(path)]: both tests are on the string that [typeof]
    returns; in the second one the prefix [!] binds tighter than [==], so a
    boolean is compared with the string. *)
Definition adaptPath (path : value) : completion value :=
  let path :=
    if eq_string_string (typeof path) "String" then VArray [path] else path in
  if eq_bool_string (JS.not (VString (typeof path))) "Array"
  then Throw (Error "Source directory: Array or String expected")
  else Normal path.

(** ** The file system *)

Definition errno_name (c : errno) : string :=
  match c with EACCES => "EACCES" | ENOENT => "ENOENT" | EROFS => "EROFS" end.

Definition errno_text (c : errno) : string :=
  match c with
  | EACCES => "permission denied"
  | ENOENT => "no such file or directory"
  | EROFS => "read-only file system"
  end.

(** [String(e)] for an exception, as string concatenation produces it. *)
Definition exn_to_string (e : exn) : string :=
  match e with
  | Error msg => "Error: " ++ msg
  | TypeError msg => "TypeError: " ++ msg
  | SystemError c syscall path =>
      "Error: " ++ errno_name c ++ ": " ++ errno_text c ++ ", " ++ syscall
        ++ " '" ++ path ++ "'"
  end%string.

Record file := File {
  content : string;
  readable : bool;
  writable : bool;
}.

(** [files] are the regular files by path; [refused] gives, for a path at
    which no file can be created (its directory is missing or read-only),
    the error that creating one there raises. *)
Record filesystem := Filesystem {
  files : gmap string file;
  refused : gmap string errno;
}.

Definition R_OK : Z := 4.
Definition W_OK : Z := 2.

(** The check of [fs.access(path, mode)]: [None] when the calling process
    may use the file as [mode] asks. Only the read and write bits occur. *)
Definition access_check (path : string) (mode : Z) (d : filesystem) : option exn :=
  match files d !! path with
  | None => Some (SystemError ENOENT "access" path)
  | Some f =>
      if (implb (Z.testbit mode 2) (readable f)) && (implb (Z.testbit mode 1) (writable f))
      then None
      else Some (SystemError EACCES "access" path)
  end.

(** [fs.readFileSync(path)]; the buffer it returns is used as a string. *)
Definition read_file (path : string) (d : filesystem) : completion string :=
  match files d !! path with
  | None => Throw (SystemError ENOENT "open" path)
  | Some f => if readable f then Normal (content f) else Throw (SystemError EACCES "open" path)
  end.

(** [fs.writeFileSync(path, data)] with [data] already converted to a
    string: an existing file must be writable, is truncated and keeps its
    permissions; a missing one is created for reading and writing, where
    one can be created. *)
Definition write_file (path data : string) (d : filesystem) : completion filesystem :=
  match files d !! path with
  | Some f =>
      if writable f
      then Normal (Filesystem (<[path := File data (readable f) true]> (files d)) (refused d))
      else Throw (SystemError EACCES "open" path)
  | None =>
      match refused d !! path with
      | Some c => Throw (SystemError c "open" path)
      | None => Normal (Filesystem (<[path := File data true true]> (files d)) (refused d))
      end
  end.

(** ** Child processes *)

(** The function expressions of [runner] that are handed to Node.js as
    listeners, named after the task that creates them. *)
Inductive callback :=
| start_on_exit            (* process.on('exit', ...) in start *)
| restart_on_access        (* the callback of fs.access in restart *)
| restart_on_stdout_close  (* process.stdout.on('close', ...) in restart *)
| restart_on_close.        (* process.on('close', ...) in restart *)

(** What a listener is registered on: the events 'exit' and 'close' of a
    child, and the event 'close' of its standard output. *)
Inductive emitter := ProcExit | ProcClose | StdoutClose.

#[global] Instance emitter_eq_dec : EqDecision emitter.
Proof. solve_decision. Defined.

#[global] Instance callback_eq_dec : EqDecision callback.
Proof. solve_decision. Defined.

(** The [stdio] option of [spawn]: pipes to the parent, which is the
    default, or the streams of the parent. *)
Inductive stdio_option := Pipe | Inherit.

(** A [ChildProcess] object. [exitCode] is set when the process ends by
    itself, [signalCode] when a signal ends it; both are [null] while it
    runs. *)
Record child := Child {
  spawnfile : string;
  args : list string;
  stdio : stdio_option;
  pid : nat;
  exitCode : option Z;
  signalCode : option string;
  listeners : list (emitter * callback);
}.

(** The end of the child has been reported. *)
Definition exited (c : child) : bool :=
  bool_decide (is_Some (exitCode c)) || bool_decide (is_Some (signalCode c)).

(** Listeners are kept in the order of their registration. *)
Definition add_listener (e : emitter) (cb : callback) (c : child) : child :=
  Child (spawnfile c) (args c) (stdio c) (pid c) (exitCode c) (signalCode c)
        (listeners c ++ [(e, cb)]).

Definition listeners_of (e : emitter) (c : child) : list callback :=
  omap (fun '(e', cb) => if decide (e' = e) then Some cb else None) (listeners c).

(** ** The state that the tasks of [runner] work on *)

Inductive line :=
| stdout_line (text : string)    (* console.log *)
| stderr_line (text : string).   (* console.error *)

(** A call of [fs.access] that has not completed yet. *)
Record request := Access {
  req_path : string;
  req_mode : Z;
  req_callback : callback;
}.

(** What the tasks do to the outside, in the order they do it. *)
Inductive action :=
| ATask (name : string)                            (* the task runner enters a task body *)
| ASpawn (h : nat) (cmd : string) (argv : list string)  (* child_process.spawn *)
| AKill (h : nat) (signal : string).               (* a signal sent by ChildProcess.kill *)

#[global] Instance action_eq_dec : EqDecision action.
Proof. solve_decision. Defined.

(** [process] is the variable that [runner] declares and its tasks share;
    it holds [null] or a reference into [children], the [ChildProcess]
    objects created so far (a reference is the object's position).
    [options] is the global that [start] assigns. [next_pid] is the
    identifier that the system gives to the next process. *)
Record state := State {
  process : option nat;
  options : list string;
  children : list child;
  fs : filesystem;
  console : list line;
  pending : list request;
  next_pid : nat;
  trace : list action;
}.

Definition set_process (p : option nat) (s : state) : state :=
  State p (options s) (children s) (fs s) (console s) (pending s) (next_pid s) (trace s).
Definition set_options (o : list string) (s : state) : state :=
  State (process s) o (children s) (fs s) (console s) (pending s) (next_pid s) (trace s).
Definition set_children (cs : list child) (s : state) : state :=
  State (process s) (options s) cs (fs s) (console s) (pending s) (next_pid s) (trace s).
Definition set_fs (d : filesystem) (s : state) : state :=
  State (process s) (options s) (children s) d (console s) (pending s) (next_pid s) (trace s).
Definition set_console (l : list line) (s : state) : state :=
  State (process s) (options s) (children s) (fs s) l (pending s) (next_pid s) (trace s).
Definition set_pending (q : list request) (s : state) : state :=
  State (process s) (options s) (children s) (fs s) (console s) q (next_pid s) (trace s).
Definition set_next_pid (n : nat) (s : state) : state :=
  State (process s) (options s) (children s) (fs s) (console s) (pending s) n (trace s).
Definition set_trace (t : list action) (s : state) : state :=
  State (process s) (options s) (children s) (fs s) (console s) (pending s) (next_pid s) t.

(** *** Computations: a state that is threaded through, and exceptions *)

Definition M (A : Type) : Type := state -> completion A * state.

#[global] Instance M_ret : MRet M := fun A a s => (Normal a, s).

#[global] Instance M_bind : MBind M := fun A B k m s =>
  match m s with
  | (Normal a, s') => k a s'
  | (Throw e, s') => (Throw e, s')
  end.

Definition throw {A} (e : exn) : M A := fun s => (Throw e, s).

(** [try { body } catch (e) { handler }] *)
Definition try_catch {A} (body : M A) (handler : exn -> M A) : M A := fun s =>
  match body s with
  | (Normal a, s') => (Normal a, s')
  | (Throw e, s') => handler e s'
  end.

Definition gets {A} (f : state -> A) : M A := fun s => (Normal (f s), s).
Definition modify (f : state -> state) : M unit := fun s => (Normal tt, f s).

Definition act (a : action) : M unit := modify (fun s => set_trace (trace s ++ [a]) s).

(** *** The console and the file system *)

Definition console_log (text : string) : M unit :=
  modify (fun s => set_console (console s ++ [stdout_line text]) s).

Definition console_error (text : string) : M unit :=
  modify (fun s => set_console (console s ++ [stderr_line text]) s).

Definition writeFileSync (path data : string) : M unit := fun s =>
  match write_file path data (fs s) with
  | Normal d => (Normal tt, set_fs d s)
  | Throw e => (Throw e, s)
  end.

Definition readFileSync (path : string) : M string := fun s =>
  match read_file path (fs s) with
  | Normal data => (Normal data, s)
  | Throw e => (Throw e, s)
  end.

(** [fs.access(path, mode, callback)] returns at once; the callback runs
    when the check completes. *)
Definition access (path : string) (mode : Z) (cb : callback) : M unit :=
  modify (fun s => set_pending (pending s ++ [Access path mode cb]) s).

(** *** [ChildProcess] *)

(** Reading a property through a reference; through [null] it is a
    [TypeError]. *)
Definition deref (r : option nat) : M (nat * child) := fun s =>
  match r with
  | Some h =>
      match children s !! h with
      | Some c => (Normal (h, c), s)
      | None => (Throw (TypeError "Cannot read property of undefined"), s)
      end
  | None => (Throw (TypeError "Cannot read property of null"), s)
  end.

Definition update_child (h : nat) (f : child -> child) : M unit :=
  modify (fun s => set_children (alter f h (children s)) s).

(** [spawn(cmd, argv, { stdio })], on the path where the system creates
    the process: the new object has the identifier the system assigned and
    no listener. With no [stdio] option the streams are pipes. *)
Definition spawn (cmd : string) (argv : list string) (io : stdio_option) : M nat := fun s =>
  let h := length (children s) in
  let c := Child cmd argv io (next_pid s) None None [] in
  (Normal h,
   set_trace (trace s ++ [ASpawn h cmd argv])
     (set_next_pid (S (next_pid s)) (set_children (children s ++ [c]) s))).

(** [child.kill()]: SIGTERM is sent while the process has not ended; the
    result tells whether it was. *)
Definition kill (r : option nat) : M bool :=
  '(h, c) ← deref r;
  if exited c then mret false
  else act (AKill h "SIGTERM");; mret true.

(** [child.on(name, listener)] and [child.stdout.on('close', listener)];
    a child that inherits the streams of its parent has [stdout] null. *)
Definition on (r : option nat) (e : emitter) (cb : callback) : M unit :=
  '(h, c) ← deref r;
  match e, stdio c with
  | StdoutClose, Inherit => throw (TypeError "Cannot read property 'on' of null")
  | _, _ => update_child h (add_listener e cb)
  end.

(** ** The tasks *)

(** [gulp.task(name, body)]: the body that the task runner runs under
    [name]; entering it is recorded. The task runner itself is not part of
    this program: [gulp.start(name)] is taken to run the body registered
    under [name], which is what it does for a task without dependencies. *)
Definition gulp_task (name : string) (body : M unit) : M unit :=
  act (ATask name);; body.

Section Runner.

(** The parameters of [runner(gulp, command, buildFile, pidFile, debug)]. *)
Variables (command buildFile pidFile : string) (debug : value).

(** Task write-build-done. [now] is the text of [new Date()], which is the
    data written. *)
Definition write_build_done (now : string) : M unit :=
  gulp_task "write-build-done"
    (try_catch
       (writeFileSync buildFile now)
       (fun e => console_error ("Build file not created: " ++ exn_to_string e)%string)).

(** Task start. *)
Definition start : M unit :=
  gulp_task "start"
    (modify (set_options []);;
     (if negb (JS.not debug)
      then modify (fun s => set_options (options s ++ ["--inspect=[::]:9229"]) s)
      else mret tt);;
     modify (fun s => set_options (options s ++ [command]) s);;
     argv ← gets options;
     h ← spawn "node" argv Inherit;
     modify (set_process (Some h));;
     p ← gets process;
     '(_, c) ← deref p;
     writeFileSync pidFile (pretty (pid c));;
     p ← gets process;
     on p ProcExit start_on_exit).

(** The listeners, with the argument Node.js calls them with: the error of
    the access check for [restart_on_access], nothing that is used for the
    others. *)
Definition run_callback (cb : callback) (err : option exn) : M unit :=
  match cb with
  | start_on_exit =>
      console_log "*** Process exited ***";;
      modify (set_process None)
  | restart_on_access =>
      match err with
      | Some _ => console_error "No application running or PID error"
      | None =>
          data ← readFileSync pidFile;
          h ← spawn "kill" [data] Pipe;
          modify (set_process (Some h));;
          p ← gets process;
          on p StdoutClose restart_on_stdout_close
      end
  | restart_on_stdout_close => start
  | restart_on_close =>
      modify (set_process None);;
      start
  end.

(** Task restart. *)
Definition restart : M unit :=
  gulp_task "restart"
    (p ← gets process;
     match p with
     | None => access pidFile (Z.lor R_OK W_OK) restart_on_access
     | Some _ =>
         '(_, c) ← deref p;
         match exitCode c with
         | Some _ => start
         | None =>
             kill p;;
             p ← gets process;
             on p ProcClose restart_on_close
         end
     end).

(** [buildDone(gulp)], with the names registered at the task runner. *)
Definition buildDone (registered : list string) (now : string) : M unit :=
  if bool_decide ("write-build-done" ∈ registered)
  then write_build_done now
  else mret tt.

(** *** Events *)

Inductive exit_status :=
| Code (n : Z)
| Signal (name : string).

(** What Node.js reports to the program: a child ended, the streams of an
    ended child are closed, the standard output of a child is closed, the
    oldest pending access check is complete. *)
Inductive event :=
| ChildExit (h : nat) (st : exit_status)
| ChildClose (h : nat)
| ChildStdoutClose (h : nat)
| AccessDone.

Definition set_exit (st : exit_status) (c : child) : child :=
  match st with
  | Code n => Child (spawnfile c) (args c) (stdio c) (pid c) (Some n) (signalCode c) (listeners c)
  | Signal g => Child (spawnfile c) (args c) (stdio c) (pid c) (exitCode c) (Some g) (listeners c)
  end.

(** The listeners run in the order of their registration; an exception
    leaves the remaining ones out. *)
Fixpoint run_listeners (cbs : list callback) : M unit :=
  match cbs with
  | [] => mret tt
  | cb :: rest => run_callback cb None;; run_listeners rest
  end.

Definition emit (h : nat) (e : emitter) : M unit :=
  cs ← gets children;
  match cs !! h with
  | Some c => run_listeners (listeners_of e c)
  | None => mret tt
  end.

Definition deliver (ev : event) : M unit :=
  match ev with
  | ChildExit h st => update_child h (set_exit st);; emit h ProcExit
  | ChildClose h => emit h ProcClose
  | ChildStdoutClose h => emit h StdoutClose
  | AccessDone =>
      q ← gets pending;
      match q with
      | [] => mret tt
      | Access path mode cb :: rest =>
          modify (set_pending rest);;
          d ← gets fs;
          run_callback cb (access_check path mode d)
      end
  end.

Fixpoint deliver_all (evs : list event) : M unit :=
  match evs with
  | [] => mret tt
  | ev :: rest => deliver ev;; deliver_all rest
  end.

End Runner.

(** The state in which [runner] leaves its variable, with nothing spawned
    yet, over a given file system. *)
Definition initial (d : filesystem) (first_pid : nat) : state :=
  State None [] [] d [] [] first_pid [].

(** ** Vocabulary of the statements *)

(** The state a computation leaves, and whether it returned or threw. *)
Definition after {A} (m : M A) (s : state) : state := snd (m s).
Definition returns {A} (m : M A) (s : state) : Prop := exists a, fst (m s) = Normal a.

Definition inspect_flag : string := "--inspect=[::]:9229".

(** The argument list [start] builds in [options]. *)
Definition node_args (command : string) (debug : value) : list string :=
  (if truthy debug then [inspect_flag] else []) ++ [command].

(** The state after [spawn]. *)
Definition spawned (cmd : string) (argv : list string) (io : stdio_option) (s : state) : state :=
  State (process s) (options s)
        (children s ++ [Child cmd argv io (next_pid s) None None []])
        (fs s) (console s) (pending s) (S (next_pid s))
        (trace s ++ [ASpawn (length (children s)) cmd argv]).

(** Every listener is one of the three this program registers, on the
    emitter it registers it on; every pending check is the one [restart]
    issues; [process] refers to an object that exists. *)
Definition wf_listener (l : emitter * callback) : bool :=
  match l with
  | (ProcExit, start_on_exit)
  | (ProcClose, restart_on_close)
  | (StdoutClose, restart_on_stdout_close) => true
  | _ => false
  end.

Definition wf_child (c : child) : bool := forallb wf_listener (listeners c).

Definition wf (s : state) : bool :=
  forallb wf_child (children s)
  && forallb (fun r => bool_decide (req_callback r = restart_on_access)) (pending s)
  && match process s with
     | Some h => bool_decide (h < length (children s))
     | None => true
     end.

(** The trace of [s'] continues the trace of [s]. *)
Definition extends (s s' : state) : Prop := exists t, trace s' = trace s ++ t.

(** The actions done between [s] and a later state [s']. *)
Definition since (s s' : state) : list action := drop (length (trace s)) (trace s').

(** How many times a trace enters the body of task start. *)
Definition starts (t : list action) : nat :=
  length (filter (fun a => a = ATask "start") t).

(** The spawns and the signals of a trace are what these keep. *)
Definition is_spawn (a : action) : bool :=
  match a with ASpawn _ _ _ => true | _ => false end.

Definition is_kill (a : action) : bool :=
  match a with AKill _ _ => true | _ => false end.

(** No restart is under way: no access check is pending and no listener
    waits for the close of the process that [process] refers to. *)
Definition settled (s : state) : bool :=
  match pending s with [] => true | _ => false end
  && match process s with
     | Some h =>
         match children s !! h with
         | Some c => match listeners_of ProcClose c with [] => true | _ => false end
         | None => false
         end
     | None => true
     end.

(** The process that a call of start in [s] spawns ends, in the state the
    call leaves, with the notice on the console and [process] null. *)
Definition exit_observed (command pidFile : string) (debug : value) (s : state) : Prop :=
  let h := length (children s) in
  let s1 := after (start command pidFile debug) s in
  forall st,
    let s2 := after (deliver command pidFile debug (ChildExit h st)) s1 in
    process s2 = None /\ console s2 = console s1 ++ [stdout_line "*** Process exited ***"].

(** The object of the process that runs the kill command. *)
Definition kill_helper (data : string) (p : nat) : child :=
  Child "kill" [data] Pipe p None None [(StdoutClose, restart_on_stdout_close)].

(** The events that concern neither a child older than [k] nor the
    output of [k]. *)
Definition helper_event (k : nat) (ev : event) : Prop :=
  match ev with
  | ChildExit h _ | ChildClose h => k <= h
  | ChildStdoutClose h => k < h
  | AccessDone => True
  end.

(** What holds while the kill helper [k] is the child [process] refers
    to: it is the youngest child, its only listener is the one on the close
    of its output, nothing was done since [s2] and no check is pending. *)
Definition helper_waits (k : nat) (s2 s' : state) : Prop :=
  process s' = Some k /\ trace s' = trace s2 /\ fs s' = fs s2
  /\ pending s' = []
  /\ length (children s') = S k
  /\ exists c', children s' !! k = Some c' /\ spawnfile c' = "kill"
                /\ listeners c' = [(StdoutClose, restart_on_stdout_close)].

(** *** Runs *)

(** What happens to the program of [runner]: the task runner runs one of
    its tasks, or Node.js reports an event. *)
Inductive input :=
| RunStart
| RunRestart
| RunWriteBuildDone (now : string)
| Report (ev : event).

Definition step (command buildFile pidFile : string) (debug : value) (i : input) : M unit :=
  match i with
  | RunStart => start command pidFile debug
  | RunRestart => restart command pidFile debug
  | RunWriteBuildDone now => write_build_done buildFile now
  | Report ev => deliver command pidFile debug ev
  end.

(** The states the program can be in. An exception ends the task or the
    listener that raised it; what it had done by then stays done. *)
Inductive reachable (command buildFile pidFile : string) (debug : value) : state -> Prop :=
| reachable_initial d n :
    reachable command buildFile pidFile debug (initial d n)
| reachable_step s i :
    reachable command buildFile pidFile debug s ->
    reachable command buildFile pidFile debug
      (after (step command buildFile pidFile debug i) s).

(** *** States used as examples *)

(** A PID file left by an earlier run, writable or read-only; and no PID
    file, in a directory where one can be created. *)
Definition disk_with_pid_file : filesystem :=
  Filesystem {[ "app.pid" := File "4711" true true ]} ∅.

Definition disk_read_only : filesystem :=
  Filesystem {[ "app.pid" := File "4711" true false; "build.txt" := File "" true false ]} ∅.

Definition disk_empty : filesystem := Filesystem ∅ ∅.

(** Nothing started yet. *)
Definition fresh_state : state := initial disk_with_pid_file 100.
Definition fresh_state_no_pid_file : state := initial disk_empty 100.
Definition fresh_state_read_only : state := initial disk_read_only 100.

(** A worker started by task start and running. *)
Definition running_state : state :=
  after (start "server.js" "app.pid" VUndefined) fresh_state.

Definition running_worker : child :=
  Child "node" ["server.js"] Inherit 100 None None [(ProcExit, start_on_exit)].

(** A worker whose start failed at the PID file and that has ended since
    with exit code 1: [process] still refers to it. *)
Definition exited_state : state :=
  after (deliver "server.js" "app.pid" VUndefined (ChildExit 0 (Code 1)))
    (after (start "server.js" "app.pid" VUndefined) fresh_state_read_only).

Definition exited_worker : child :=
  Child "node" ["server.js"] Inherit 100 (Some 1%Z) None [].

(** The state after a sequence of inputs. *)
Definition run (command buildFile pidFile : string) (debug : value)
    (ins : list input) (s : state) : state :=
  foldl (fun s i => after (step command buildFile pidFile debug i) s) s ins.

(** Every child object of [s] is still there in [s'], with the listeners
    it had. *)
Definition keeps_listeners (s s' : state) : Prop :=
  forall h c, children s !! h = Some c ->
    exists c', children s' !! h = Some c' /\ listeners c ⊆ listeners c'.

(** The notice of the exit observer is the last line of the console of
    [s'], which continues the console of [s]. *)
Definition exit_notice_logged (s s' : state) : Prop :=
  exists n, console s' = console s ++ replicate (S n) (stdout_line "*** Process exited ***").
(** ** Task test *)

(** What task test works on: the Node.js state, the global [istanbul] that
    the task assigns, and the children on which its listener waits for
    'close', in the order of registration. *)
Record coverage := Coverage {
  node : state;
  istanbul : option nat;
  closers : list nat;
}.

Section Test.

(** The parameters of [test(gulp, jsTestsPath, coverageReportsDirectory)]. *)
Variables (jsTestsPath coverageReportsDirectory : string).

(** The listener of 'close' that task test registers; [data] is the exit
    code Node.js passes, null after a signal. *)
Definition test_on_close (data : option Z) : M unit :=
  spawn "remap-istanbul"
    ["-i"; (coverageReportsDirectory ++ "/coverage.json")%string; "-t"; "lcovonly";
     "-o"; (coverageReportsDirectory ++ "/lcov.info")%string] Inherit;;
  spawn "remap-istanbul"
    ["-i"; (coverageReportsDirectory ++ "/coverage.json")%string; "-t"; "html";
     "-o"; (coverageReportsDirectory ++ "/lcov-report")%string] Inherit;;
  mret tt.

(** Task test. *)
Definition test (w : coverage) : completion unit * coverage :=
  match
    (act (ATask "test");;
     spawn "istanbul"
       ["cover"; "--dir"; coverageReportsDirectory; "_mocha"; "--"; "-R"; "spec";
        jsTestsPath] Inherit) (node w)
  with
  | (Normal h, s) => (Normal tt, Coverage s (Some h) (closers w ++ [h]))
  | (Throw e, s) => (Throw e, Coverage s (istanbul w) (closers w))
  end.

(** The listeners of 'close' on child [h], one run for each registration. *)
Fixpoint run_closers (h : nat) (data : option Z) (registered : list nat) : M unit :=
  match registered with
  | [] => mret tt
  | x :: rest =>
      (if Nat.eqb x h then test_on_close data else mret tt);;
      run_closers h data rest
  end.

(** Node.js reports that the streams of child [h] are closed. *)
Definition test_close (h : nat) (data : option Z) (w : coverage)
  : completion unit * coverage :=
  match run_closers h data (closers w) (node w) with
  | (r, s) => (r, Coverage s (istanbul w) (closers w))
  end.

(** Runs of task test and of the closes reported to it. *)
Inductive test_input :=
| RunTest
| Closed (h : nat) (data : option Z).

Definition test_step (i : test_input) (w : coverage) : coverage :=
  match i with
  | RunTest => snd (test w)
  | Closed h data => snd (test_close h data w)
  end.

Definition test_run (ins : list test_input) (w : coverage) : coverage :=
  foldl (fun w i => test_step i w) w ins.

End Test.

(** ** Tasks of [typescript] and [assets] *)

(** [text.replace(/\\/g, "/")] *)
Fixpoint replace_backslashes (text : string) : string :=
  match text with
  | EmptyString => EmptyString
  | String a rest =>
      String (if Ascii.eqb a "\" then "/"%char else a) (replace_backslashes rest)
  end.

(** The calls that build a stream, as the tasks write them: [gulp.src],
    [.pipe(...)], the outputs [.js] and [.dts] of the compiler, and
    [merge]. A project is named by the position of its [createProject]
    call. *)
Inductive plugin :=
| SourcemapsInit
| Compile (project : nat)
| SourcemapsWrite (dir : string) (includeContent : bool) (sourceRoot : string)
| Dest (dir : string).

Inductive stream :=
| GSrc (globs : value)
| GPipe (from : stream) (to : plugin)
| GJs (from : stream)
| GDts (from : stream)
| GMerge (one other : stream).

(** The variable [tsProject] of [typescript], and the calls of
    [createProject] so far with their configuration file and [outDir]. *)
Record ts_state := TsState {
  tsProject : option nat;
  created : list (string * string);
}.

(** What a task returns to the task runner: the stream and the function
    it runs at the end of the stream. *)
Record gulp_stream := GulpStream {
  result : stream;
  on_end : string;
}.

Section Typescript.

(** The parameters of [typescript]; [relative] is [path.relative]. *)
Variables (sourceDirectory tsConfigFile outputDirectory outputTypingsDirectory : string).
Variable relative : string -> string -> string.

(** Task build-typescript. *)
Definition build_typescript (t : ts_state) : gulp_stream * ts_state :=
  let '(project, t) :=
    match tsProject t with
    | Some project => (project, t)
    | None =>
        let project := length (created t) in
        (project, TsState (Some project) (created t ++ [(tsConfigFile, sourceDirectory)]))
    end in
  let tsStream :=
    GPipe (GPipe (GSrc (VString (sourceDirectory ++ "/**/*.ts"))) SourcemapsInit)
          (Compile project) in
  let jsStream :=
    GPipe (GPipe (GJs tsStream)
             (SourcemapsWrite "." false
                (replace_backslashes (relative outputDirectory sourceDirectory))))
          (Dest outputDirectory) in
  let dtsStream := GPipe (GDts tsStream) (Dest outputTypingsDirectory) in
  let jsStream := GMerge jsStream dtsStream in
  (GulpStream jsStream "buildDone", t).

(** The streams of [n] runs of build-typescript, first run first. *)
Fixpoint builds (n : nat) (t : ts_state) : list gulp_stream * ts_state :=
  match n with
  | 0 => ([], t)
  | S n =>
      let '(g, t) := build_typescript t in
      let '(gs, t) := builds n t in
      (g :: gs, t)
  end.

End Typescript.

(** The options that the tasks give to the watcher. *)
Record watch_options := WatchOptions {
  usePolling : bool;
  awaitWriteFinish : bool;
  alwaysStat : bool;
}.

(** Task watch-assets. [watch] is [plugins.watch], which is not part of
    this program: it is given the globs, the options and the task that its
    callback starts, and returns a watcher or throws. *)
Definition watch_assets {A : Type}
    (watch : value -> watch_options -> string -> completion A)
    (assetsPath : value) : completion A :=
  match adaptPath assetsPath with
  | Normal globs => watch globs (WatchOptions true true true) "copy-assets"
  | Throw e => Throw e
  end.

(** Task copy-assets. *)
Definition copy_assets (assetsPath : value) (outputDirectory : string) : gulp_stream :=
  GulpStream (GPipe (GSrc assetsPath) (Dest outputDirectory)) "buildDone".

(** The globs a stream reads. *)
Fixpoint stream_sources (g : stream) : list value :=
  match g with
  | GSrc globs => [globs]
  | GPipe from _ | GJs from | GDts from => stream_sources from
  | GMerge one other => stream_sources one ++ stream_sources other
  end.

(** The source roots that a stream writes into its source maps. *)
Fixpoint stream_source_roots (g : stream) : list string :=
  match g with
  | GSrc _ => []
  | GPipe from (SourcemapsWrite _ _ sourceRoot) => stream_source_roots from ++ [sourceRoot]
  | GPipe from _ | GJs from | GDts from => stream_source_roots from
  | GMerge one other => stream_source_roots one ++ stream_source_roots other
  end.

(** The projects a stream compiles with. *)
Fixpoint stream_projects (g : stream) : list nat :=
  match g with
  | GSrc _ => []
  | GPipe from (Compile project) => stream_projects from ++ [project]
  | GPipe from _ | GJs from | GDts from => stream_projects from
  | GMerge one other => stream_projects one ++ stream_projects other
  end.

(** ** More vocabulary *)

(** The two kinds of process the tasks of [runner] spawn: the worker, run
    by node with the arguments of start on the streams of the parent, and
    the kill helper, with one argument, on pipes. *)
Definition runner_child (command : string) (debug : value) (c : child) : Prop :=
  (spawnfile c = "node" /\ args c = node_args command debug /\ stdio c = Inherit)
  \/ (spawnfile c = "kill" /\ length (args c) = 1 /\ stdio c = Pipe).

(** The registrations of task test are in order: no child is registered
    twice, and each registered child exists and runs istanbul. *)
Definition test_valid (w : coverage) : bool :=
  bool_decide (NoDup (closers w))
  && forallb (fun h => bool_decide (spawnfile <$> children (node w) !! h = Some "istanbul"))
       (closers w).

(** A world in which task test has not run. *)
Definition test_initial (s : state) : coverage := Coverage s None [].

(** *** More states used as examples *)

(** A PID file that can be written and not read. *)
Definition disk_write_only : filesystem :=
  Filesystem {[ "app.pid" := File "4711" false true ]} ∅.

Definition fresh_state_write_only : state := initial disk_write_only 100.

(** A new run of the program on the file system that [running_state]
    left. *)
Definition next_run_state : state := initial (fs running_state) 200.

(** A new run of the program on the file system that start left when the
    PID file could be written and not read. *)
Definition next_run_write_only : state :=
  initial (fs (after (start "server.js" "app.pid" VUndefined) fresh_state_write_only)) 200.

(** Task test has run once. *)
Definition testing_world : coverage :=
  snd (test "test/**/*.js" "coverage" (test_initial fresh_state)).



(** Two workers were started and the first has ended: the second runs,
    the PID file names it, and [process] is null. *)
Definition second_worker_state : state :=
  run "server.js" "build.txt" "app.pid" VUndefined
    [RunStart; RunStart; Report (ChildExit 0 (Code 0)); Report (ChildClose 0)]
    fresh_state.

(** ** The tasks, step by step *)

(** Unfolds the sequencing and the operations that cannot fail. *)
Ltac mrun :=
  repeat (unfold mbind, mret, M_bind, M_ret, gulp_task, act, modify, gets, throw,
            console_log, console_error, access, update_child; cbn).

Lemma lookup_fresh (cs : list child) (c : child) : (cs ++ [c]) !! length cs = Some c.
Proof. by rewrite list_lookup_middle. Qed.

Lemma alter_fresh (f : child -> child) (cs : list child) (c : child) :
  alter f (length cs) (cs ++ [c]) = cs ++ [f c].
Proof.
  induction cs; cbn; [done|]. by f_equal.
Qed.

Lemma wf_intro s :
  forallb wf_child (children s) ->
  forallb (fun r => bool_decide (req_callback r = restart_on_access)) (pending s) ->
  match process s with Some h => h < length (children s) | None => True end ->
  wf s.
Proof.
  intros A B C. unfold wf. rewrite !andb_True. repeat split; try done.
  destruct (process s); [by apply bool_decide_pack|done].
Qed.

Lemma wf_elim s :
  wf s ->
  forallb wf_child (children s) /\
  forallb (fun r => bool_decide (req_callback r = restart_on_access)) (pending s) /\
  match process s with Some h => h < length (children s) | None => True end.
Proof.
  unfold wf. rewrite !andb_True. intros [[A B] C]. repeat split; try done.
  destruct (process s); [by apply bool_decide_unpack in C|done].
Qed.

Lemma forallb_snoc {A} (f : A -> bool) (l : list A) (x : A) :
  forallb f l -> f x -> forallb f (l ++ [x]).
Proof. intros. rewrite forallb_app. cbn. rewrite !andb_True. done. Qed.

Lemma forallb_alter {A} (f : A -> bool) (g : A -> A) (i : nat) (l : list A) :
  (forall x, f x -> f (g x)) -> forallb f l -> forallb f (alter g i l).
Proof.
  intros G. revert i. induction l as [|x l IH]; intros [|i]; cbn; try done;
    rewrite !andb_True; intros [? ?]; split; auto.
Qed.

Lemma extends_same s s' : trace s' = trace s -> extends s s'.
Proof. intros E. exists []. by rewrite app_nil_r. Qed.

Lemma extends_trans s1 s2 s3 : extends s1 s2 -> extends s2 s3 -> extends s1 s3.
Proof. intros [t E] [u F]. exists (t ++ u). by rewrite F, E, app_assoc. Qed.

Section Specs.
Variables (command buildFile pidFile : string) (debug : value).

Lemma start_spec s :
  let argv := node_args command debug in
  let h := length (children s) in
  let s1 := set_process (Some h) (spawned "node" argv Inherit
             (set_options argv (set_trace (trace s ++ [ATask "start"]) s))) in
  start command pidFile debug s =
    match write_file pidFile (pretty (next_pid s)) (fs s) with
    | Normal d =>
        (Normal tt,
         set_children (children s ++ [Child "node" argv Inherit (next_pid s) None None
                                        [(ProcExit, start_on_exit)]])
           (set_fs d s1))
    | Throw e => (Throw e, s1)
    end.
Proof.
  intros argv h s1. subst argv h s1. unfold start, node_args, JS.not.
  rewrite negb_involutive.
  destruct (truthy debug); mrun; rewrite lookup_fresh; cbn;
    unfold writeFileSync; cbn; destruct (write_file _ _ _); cbn; try done;
    unfold on; mrun; rewrite lookup_fresh; mrun; rewrite alter_fresh; done.
Qed.


Lemma restart_absent s :
  process s = None ->
  restart command pidFile debug s =
    (Normal tt,
     set_pending (pending s ++ [Access pidFile (Z.lor R_OK W_OK) restart_on_access])
       (set_trace (trace s ++ [ATask "restart"]) s)).
Proof. intros E. unfold restart. mrun. by rewrite E. Qed.

Lemma restart_exited s h c n :
  process s = Some h -> children s !! h = Some c -> exitCode c = Some n ->
  restart command pidFile debug s =
    start command pidFile debug (set_trace (trace s ++ [ATask "restart"]) s).
Proof.
  intros E L X. unfold restart. mrun. rewrite E. unfold deref. cbn.
  by rewrite L, X.
Qed.

Lemma restart_waiting s h c :
  process s = Some h -> children s !! h = Some c -> exitCode c = None ->
  restart command pidFile debug s =
    (Normal tt,
     set_children (alter (add_listener ProcClose restart_on_close) h (children s))
       (set_trace
          (trace s ++ ATask "restart" :: (if exited c then [] else [AKill h "SIGTERM"]))
          s)).
Proof.
  intros E L X. unfold restart. mrun. rewrite E. unfold deref. cbn.
  rewrite L, X. unfold kill, on. mrun. rewrite L.
  destruct (exited c); cbn; rewrite E; unfold deref; cbn; rewrite L; cbn; [done|].
  by rewrite <- app_assoc.
Qed.

Lemma on_exit_spec err s :
  run_callback command pidFile debug start_on_exit err s =
    (Normal tt,
     set_process None (set_console (console s ++ [stdout_line "*** Process exited ***"]) s)).
Proof. done. Qed.

Lemma on_access_error s e :
  run_callback command pidFile debug restart_on_access (Some e) s =
    (Normal tt,
     set_console (console s ++ [stderr_line "No application running or PID error"]) s).
Proof. done. Qed.

Lemma on_access_ok s data :
  read_file pidFile (fs s) = Normal data ->
  run_callback command pidFile debug restart_on_access None s =
    (Normal tt,
     set_children
       (children s ++ [Child "kill" [data] Pipe (next_pid s) None None
                         [(StdoutClose, restart_on_stdout_close)]])
       (set_process (Some (length (children s))) (spawned "kill" [data] Pipe s))).
Proof.
  intros R. cbn. unfold readFileSync. mrun. rewrite R. cbn.
  unfold on, deref. mrun. rewrite lookup_fresh. mrun. by rewrite alter_fresh.
Qed.

Lemma on_close_spec err s :
  run_callback command pidFile debug restart_on_close err s =
    start command pidFile debug (set_process None s).
Proof. done. Qed.


(** *** The invariant *)

Lemma wf_start s : wf s -> wf (after (start command pidFile debug) s).
Proof.
  intros W. apply wf_elim in W as (A & B & C). unfold after. rewrite start_spec.
  destruct (write_file _ _ _); cbn; apply wf_intro; cbn; try done.
  - by apply forallb_snoc.
  - rewrite length_app. cbn. lia.
  - by apply forallb_snoc.
  - rewrite length_app. cbn. lia.
Qed.


Lemma on_access_unreadable s e :
  read_file pidFile (fs s) = Throw e ->
  run_callback command pidFile debug restart_on_access None s = (Throw e, s).
Proof. intros R. cbn. unfold readFileSync. mrun. by rewrite R. Qed.

Lemma run_listeners_cons cb rest s :
  run_listeners command pidFile debug (cb :: rest) s =
    match run_callback command pidFile debug cb None s with
    | (Normal _, s') => run_listeners command pidFile debug rest s'
    | (Throw e, s') => (Throw e, s')
    end.
Proof. done. Qed.

Lemma wf_callback cb err s :
  wf s -> wf (after (run_callback command pidFile debug cb err) s).
Proof.
  intros W. destruct cb.
  - apply wf_elim in W as (A & B & C). by apply wf_intro.
  - destruct err as [e|].
    + apply wf_elim in W as (A & B & C). by apply wf_intro.
    + unfold after. destruct (read_file pidFile (fs s)) as [data|e] eqn:R.
      * rewrite (on_access_ok _ _ R). apply wf_elim in W as (A & B & C).
        apply wf_intro; cbn; [by apply forallb_snoc|done|].
        rewrite length_app. cbn. lia.
      * by rewrite (on_access_unreadable _ _ R).
  - by apply wf_start.
  - unfold after. rewrite on_close_spec. apply wf_start.
    apply wf_elim in W as (A & B & C). by apply wf_intro.
Qed.

Lemma wf_listeners cbs s :
  wf s -> wf (after (run_listeners command pidFile debug cbs) s).
Proof.
  revert s. induction cbs as [|cb rest IH]; intros s W; [done|].
  unfold after. rewrite run_listeners_cons.
  pose proof (wf_callback cb None s W) as W'. unfold after in W'.
  destruct (run_callback _ _ _ cb None s) as [[[]|e] s']; cbn in W'; [|done].
  by apply IH.
Qed.

Lemma wf_restart s : wf s -> wf (after (restart command pidFile debug) s).
Proof.
  intros W. pose proof (wf_elim _ W) as (A & B & C). unfold after.
  destruct (process s) as [h|] eqn:E.
  - destruct (lookup_lt_is_Some_2 _ _ C) as [c L].
    destruct (exitCode c) as [n|] eqn:X.
    + rewrite (restart_exited _ _ _ _ E L X). apply wf_start.
      apply wf_intro; cbn; try done. by rewrite E.
    + rewrite (restart_waiting _ _ _ E L X). apply wf_intro; cbn; try done.
      * apply forallb_alter; [|done]. intros x Hx. unfold wf_child. cbn.
        by apply forallb_snoc.
      * by rewrite E, length_alter.
  - rewrite (restart_absent _ E). apply wf_intro; cbn; try done.
    + by apply forallb_snoc; [|apply bool_decide_pack].
    + by rewrite E.
Qed.

Lemma wf_write_build_done now s :
  wf s -> wf (after (write_build_done buildFile now) s).
Proof.
  intros W. apply wf_elim in W as (A & B & C).
  unfold after, write_build_done, try_catch, writeFileSync. mrun.
  destruct (write_file _ _ _); by apply wf_intro.
Qed.

Lemma wf_deliver ev s : wf s -> wf (after (deliver command pidFile debug ev) s).
Proof.
  intros W. pose proof (wf_elim _ W) as (A & B & C).
  assert (E : forall h e s0, wf s0 -> wf (after (emit command pidFile debug h e) s0)).
  { intros h e s0 W0. unfold after, emit. mrun.
    destruct (children s0 !! h); [by apply wf_listeners|done]. }
  destruct ev as [h st|h|h|]; try by apply E.
  - unfold after, deliver. mrun. apply E. apply wf_intro; cbn; try done.
    + apply forallb_alter; [|done]. by intros x Hx; destruct st.
    + destruct (process s); [|done]. by rewrite length_alter.
  - unfold after, deliver. mrun. destruct (pending s) as [|[path mode cb] rest] eqn:Q; [done|].
    cbn. apply wf_callback. apply wf_intro; cbn; try done.
    cbn in B. by apply andb_True in B as [_ B].
Qed.

Lemma wf_deliver_all evs s :
  wf s -> wf (after (deliver_all command pidFile debug evs) s).
Proof.
  revert s. induction evs as [|ev rest IH]; intros s W; [done|].
  pose proof (wf_deliver ev s W) as W'. unfold after in *. cbn. mrun.
  destruct (deliver _ _ _ ev s) as [[[]|e] s']; cbn in *; [|done].
  by apply IH.
Qed.

(** *** The trace only grows *)

Lemma start_trace s :
  trace (after (start command pidFile debug) s) =
    trace s ++ [ATask "start"; ASpawn (length (children s)) "node" (node_args command debug)].
Proof.
  unfold after. rewrite start_spec.
  destruct (write_file _ _ _); cbn; by rewrite <- app_assoc.
Qed.

Lemma extends_callback cb err s :
  extends s (after (run_callback command pidFile debug cb err) s).
Proof.
  destruct cb.
  - by apply extends_same.
  - destruct err as [e|]; [by apply extends_same|]. unfold after.
    destruct (read_file pidFile (fs s)) as [data|e] eqn:R.
    + rewrite (on_access_ok _ _ R). by eexists.
    + rewrite (on_access_unreadable _ _ R). by apply extends_same.
  - eexists. apply start_trace.
  - unfold after. rewrite on_close_spec. eexists.
    apply (start_trace (set_process None s)).
Qed.

Lemma extends_listeners cbs s :
  extends s (after (run_listeners command pidFile debug cbs) s).
Proof.
  revert s. induction cbs as [|cb rest IH]; intros s; [by apply extends_same|].
  unfold after. rewrite run_listeners_cons.
  pose proof (extends_callback cb None s) as X. unfold after in X.
  destruct (run_callback _ _ _ cb None s) as [[[]|e] s']; cbn in X; [|done].
  eapply extends_trans; [exact X|apply IH].
Qed.

Lemma extends_deliver ev s :
  extends s (after (deliver command pidFile debug ev) s).
Proof.
  assert (E : forall h e s0, extends s0 (after (emit command pidFile debug h e) s0)).
  { intros h e s0. unfold after, emit. mrun.
    destruct (children s0 !! h); [apply extends_listeners|by apply extends_same]. }
  destruct ev as [h st|h|h|]; try by apply E.
  - unfold after, deliver. mrun.
    apply (E h ProcExit (set_children (alter (set_exit st) h (children s)) s)).
  - unfold after, deliver. mrun.
    destruct (pending s) as [|[path mode cb] rest]; [by apply extends_same|]. cbn.
    apply (extends_callback cb _ (set_pending rest s)).
Qed.

Lemma extends_deliver_all evs s :
  extends s (after (deliver_all command pidFile debug evs) s).
Proof.
  revert s. induction evs as [|ev rest IH]; intros s; [by apply extends_same|].
  pose proof (extends_deliver ev s) as X. unfold after in *. cbn. mrun.
  destruct (deliver _ _ _ ev s) as [[[]|e] s']; cbn in *; [|done].
  eapply extends_trans; [exact X|apply IH].
Qed.

End Specs.

Lemma wf_initial d n : wf (initial d n).
Proof. done. Qed.

Lemma since_app s s' t : trace s' = trace s ++ t -> since s s' = t.
Proof. intros E. unfold since. by rewrite E, drop_app_length. Qed.

Lemma start_child command pidFile debug s :
  exists ls,
    children (after (start command pidFile debug) s) =
      children s ++ [Child "node" (node_args command debug) Inherit (next_pid s) None None ls]
    /\ process (after (start command pidFile debug) s) = Some (length (children s)).
Proof.
  unfold after. rewrite start_spec. destruct (write_file _ _ _); cbn; by eexists.
Qed.

(** ** The claims *)

(** C9: for every input value, whatever its type, [adaptPath] returns its
    argument unchanged and does not throw; the comparison of [typeof path]
    with 'String' and the comparison of [!typeof path] with 'Array' are false
    for every value, so neither the wrapping nor the throw is reached. *)
Theorem adaptPath_returns_argument (path : value) :
  adaptPath path = Normal path
  /\ eq_string_string (typeof path) "String" = false
  /\ eq_bool_string (JS.not (VString (typeof path))) "Array" = false.
Proof. by destruct path. Qed.

(** C5: for every command string and every state, the argument list of the
    node process that start spawns is [command] alone when debug is false,
    and the inspector flag followed by [command] when debug is true; start
    spawns nothing else. *)
Theorem start_argument_list (command pidFile : string) (s : state) :
  let h := length (children s) in
  let plain := after (start command pidFile (VBool false)) s in
  let debugged := after (start command pidFile (VBool true)) s in
  (exists c, children plain !! h = Some c /\ spawnfile c = "node" /\ args c = [command])
  /\ filter is_spawn (since s plain) = [ASpawn h "node" [command]]
  /\ (exists c, children debugged !! h = Some c /\ spawnfile c = "node"
                /\ args c = ["--inspect=[::]:9229"; command])
  /\ filter is_spawn (since s debugged)
     = [ASpawn h "node" ["--inspect=[::]:9229"; command]]
  /\ (forall debug,
        exists c, children (after (start command pidFile debug) s) !! h = Some c
                  /\ args c = if truthy debug
                              then ["--inspect=[::]:9229"; command]
                              else [command]).
Proof.
  intros h plain debugged. subst h plain debugged. split_and!.
  - destruct (start_child command pidFile (VBool false) s) as (ls & E & _).
    rewrite E, lookup_fresh. by eexists.
  - by rewrite (since_app _ _ _ (start_trace command pidFile (VBool false) s)).
  - destruct (start_child command pidFile (VBool true) s) as (ls & E & _).
    rewrite E, lookup_fresh. by eexists.
  - by rewrite (since_app _ _ _ (start_trace command pidFile (VBool true) s)).
  - intros debug. destruct (start_child command pidFile debug s) as (ls & E & _).
    rewrite E, lookup_fresh. eexists. split; [done|]. cbn. unfold node_args.
    by destruct (truthy debug).
Qed.

Lemma write_file_content path data d d' :
  write_file path data d = Normal d' ->
  exists f, files d' !! path = Some f /\ content f = data.
Proof.
  unfold write_file. intros E.
  destruct (files d !! path) as [f|].
  - destruct (writable f); [|done]. injection E as <-. cbn.
    rewrite lookup_insert_eq. by eexists.
  - destruct (refused d !! path); [done|]. injection E as <-. cbn.
    rewrite lookup_insert_eq. by eexists.
Qed.

(** start completes when the PID file can be written: it exists and is
    writable, or it is missing where a file can be created. *)
Lemma start_completes command pidFile debug s :
  (exists f, files (fs s) !! pidFile = Some f /\ writable f = true)
  \/ (files (fs s) !! pidFile = None /\ refused (fs s) !! pidFile = None) ->
  returns (start command pidFile debug) s.
Proof.
  unfold returns. rewrite start_spec. unfold write_file.
  intros [(f & -> & ->)|[-> ->]]; by eexists.
Qed.

(** C2: whatever the PID file held before, when start has completed the
    PID file holds exactly the decimal text of the identifier of the process
    that this call spawned, and [process] refers to that process. *)
Theorem start_writes_pid (command pidFile : string) (debug : value) (s s' : state) :
  start command pidFile debug s = (Normal tt, s') ->
  exists c f,
    children s !! length (children s) = None
    /\ children s' !! length (children s) = Some c
    /\ process s' = Some (length (children s))
    /\ pid c = next_pid s
    /\ files (fs s') !! pidFile = Some f
    /\ content f = pretty (pid c).
Proof.
  rewrite start_spec. intros E.
  destruct (write_file _ _ _) as [d|e] eqn:W; [|done].
  injection E as <-. cbn.
  destruct (write_file_content _ _ _ _ W) as (f & F & C).
  eexists _, f. rewrite lookup_fresh. repeat split; try done.
  apply lookup_ge_None_2. lia.
Qed.


Lemma seq_normal {A B} (m : M A) (k : M B) (s s1 : state) (a : A) :
  m s = (Normal a, s1) -> (m;; k) s = k s1.
Proof. intros E. unfold mbind, M_bind. by rewrite E. Qed.

Lemma write_build_done_returns buildFile now s :
  returns (write_build_done buildFile now) s.
Proof.
  unfold returns, write_build_done, try_catch, writeFileSync. mrun.
  destruct (write_file _ _ _); by eexists.
Qed.

(** C8: when the write of the build-done marker fails, the exception is
    caught in the task: the task returns, the console has the report of the
    error, the file system is as before, whatever follows the task runs, and
    [buildDone], which calls the task, returns too. *)
Theorem write_build_done_catches (buildFile now : string) (s : state) (e : exn) :
  write_file buildFile now (fs s) = Throw e ->
  let s' :=
    set_console
      (console s ++ [stderr_line ("Build file not created: " ++ exn_to_string e)])
      (set_trace (trace s ++ [ATask "write-build-done"]) s) in
  write_build_done buildFile now s = (Normal tt, s')
  /\ fs s' = fs s
  /\ (forall k : M unit, (write_build_done buildFile now;; k) s = k s')
  /\ (forall registered, returns (buildDone buildFile registered now) s).
Proof.
  intros W s'.
  assert (E : write_build_done buildFile now s = (Normal tt, s')).
  { unfold write_build_done, try_catch, writeFileSync. mrun. by rewrite W. }
  repeat split; try done.
  - intros k. by apply (seq_normal _ _ _ _ _ E).
  - intros registered. unfold buildDone.
    destruct (bool_decide _); [apply write_build_done_returns|by eexists].
Qed.

Lemma access_check_rw path d :
  access_check path (Z.lor R_OK W_OK) d = None <->
  exists f, files d !! path = Some f /\ readable f = true /\ writable f = true.
Proof.
  unfold access_check. destruct (files d !! path) as [f|]; cbn.
  - split.
    + intros H. exists f. destruct (readable f), (writable f); by cbn in H.
    + by intros (f' & [= <-] & -> & ->).
  - split; [done|]. by intros (? & ? & _).
Qed.

(** C3: when restart runs with [process] null and the PID file is missing
    or does not pass the check for reading and writing, restart itself only
    issues the check, and the completion of the check puts the error line on
    the console and does nothing else: no child object is created, nothing
    is spawned or signalled, the file system and [process] are as before and
    nothing is left pending. *)
Theorem restart_without_pid_file (command pidFile : string) (debug : value) (s : state) :
  process s = None -> pending s = [] ->
  (files (fs s) !! pidFile = None
   \/ access_check pidFile (Z.lor R_OK W_OK) (fs s) <> None) ->
  let s1 := after (restart command pidFile debug) s in
  let s2 := after (deliver command pidFile debug AccessDone) s1 in
  returns (restart command pidFile debug) s
  /\ console s1 = console s
  /\ returns (deliver command pidFile debug AccessDone) s1
  /\ console s2 = console s ++ [stderr_line "No application running or PID error"]
  /\ since s s2 = [ATask "restart"]
  /\ children s2 = children s
  /\ fs s2 = fs s
  /\ process s2 = None
  /\ pending s2 = []
  /\ s2 = set_console
            (console s ++ [stderr_line "No application running or PID error"])
            (set_trace (trace s ++ [ATask "restart"]) s).
Proof.
  intros E Q F s1 s2. subst s1 s2. unfold after, returns.
  rewrite (restart_absent _ _ _ _ E), Q. cbn.
  assert (X : exists e, access_check pidFile (Z.lor R_OK W_OK) (fs s) = Some e).
  { destruct F as [F|F].
    - unfold access_check. rewrite F. by eexists.
    - destruct (access_check _ _ _); [by eexists|done]. }
  destruct X as [e X]. unfold deliver. mrun. rewrite X. cbn.
  split_and!; try done; try by eexists.
  - unfold since. cbn. by rewrite drop_app_length.
  - unfold set_console, set_trace. cbn. by rewrite E, Q.
Qed.

Lemma listeners_of_set_exit e st c :
  listeners_of e (set_exit st c) = listeners_of e c.
Proof. by destruct st. Qed.

Lemma deliver_exit command pidFile debug s h c st :
  children s !! h = Some c ->
  deliver command pidFile debug (ChildExit h st) s =
    run_listeners command pidFile debug (listeners_of ProcExit c)
      (set_children (alter (set_exit st) h (children s)) s).
Proof.
  intros L. unfold deliver, emit. mrun.
  rewrite list_lookup_alter_eq, L. cbn. by rewrite listeners_of_set_exit.
Qed.

Lemma deliver_emit command pidFile debug s h c ev e :
  (ev = ChildClose h /\ e = ProcClose) \/ (ev = ChildStdoutClose h /\ e = StdoutClose) ->
  children s !! h = Some c ->
  deliver command pidFile debug ev s =
    run_listeners command pidFile debug (listeners_of e c) s.
Proof.
  intros [[-> ->]|[-> ->]] L; unfold deliver, emit; mrun; by rewrite L.
Qed.


Lemma after_seq {A B} (m : M A) (k : M B) (s s1 : state) (a : A) :
  m s = (Normal a, s1) -> after (m;; k) s = after k s1.
Proof. intros E. unfold after. by rewrite (seq_normal _ _ _ _ _ E). Qed.

Lemma listeners_of_add e e' cb c :
  listeners_of e (add_listener e' cb c) =
    listeners_of e c ++ (if decide (e' = e) then [cb] else []).
Proof.
  unfold listeners_of, add_listener. cbn. rewrite omap_app. cbn.
  by destruct (decide (e' = e)).
Qed.

Lemma run_single command pidFile debug cb s :
  after (run_listeners command pidFile debug [cb]) s =
    after (run_callback command pidFile debug cb None) s.
Proof.
  unfold after. rewrite run_listeners_cons.
  by destruct (run_callback _ _ _ cb None s) as [[[]|e] s'].
Qed.

Lemma wf_exit_listeners c :
  wf_child c -> Forall (fun cb => cb = start_on_exit) (listeners_of ProcExit c).
Proof.
  unfold wf_child, listeners_of. induction (listeners c) as [|[e cb] l IH]; cbn.
  - constructor.
  - rewrite andb_True. intros [W Wl].
    destruct e, cb; cbn in *; try done; try (constructor; [done|]); by apply IH.
Qed.

(** The exit observers only write to the console and clear [process]. *)
Lemma run_exit_listeners command pidFile debug cbs s :
  Forall (fun cb => cb = start_on_exit) cbs ->
  run_listeners command pidFile debug cbs s =
    (Normal tt,
     State (match cbs with [] => process s | _ => None end) (options s) (children s)
           (fs s)
           (console s ++ replicate (length cbs) (stdout_line "*** Process exited ***"))
           (pending s) (next_pid s) (trace s)).
Proof.
  intros F. revert s. induction F as [|cb rest -> F IH]; intros s.
  - cbn. rewrite app_nil_r. by destruct s.
  - rewrite run_listeners_cons, on_exit_spec, IH. cbn. rewrite <- app_assoc. cbn.
    by destruct rest.
Qed.

Lemma wf_lookup s h c : wf s -> children s !! h = Some c -> wf_child c.
Proof.
  intros W L. apply wf_elim in W as (A & _ & _).
  rewrite forallb_True, Forall_lookup in A. by apply (A h).
Qed.

Lemma settled_elim s h c :
  settled s -> process s = Some h -> children s !! h = Some c ->
  pending s = [] /\ listeners_of ProcClose c = [].
Proof.
  unfold settled. rewrite andb_True. intros [Q C] E L. rewrite E, L in C.
  split; [by destruct (pending s)|by destruct (listeners_of ProcClose c)].
Qed.


Section RestartRun.

Variables (command pidFile : string) (debug : value).


(** The report that a child ended, in a well-formed state: the exit
    observers run, and nothing is spawned or signalled. *)
Lemma exit_quiet s h c st :
  wf s -> children s !! h = Some c ->
  exists s',
    deliver command pidFile debug (ChildExit h st) s = (Normal tt, s')
    /\ trace s' = trace s
    /\ children s' = alter (set_exit st) h (children s)
    /\ fs s' = fs s
    /\ pending s' = pending s.
Proof.
  intros W L. rewrite (deliver_exit _ _ _ _ _ _ _ L).
  rewrite run_exit_listeners; [|by eapply wf_exit_listeners, wf_lookup].
  by eexists.
Qed.

Lemma close_after_restart s2 h c st :
  children s2 !! h = Some (set_exit st (add_listener ProcClose restart_on_close c)) ->
  listeners_of ProcClose c = [] ->
  after (deliver command pidFile debug (ChildClose h)) s2
  = after (start command pidFile debug) (set_process None s2).
Proof.
  intros L N. unfold after at 1. erewrite deliver_emit; [|by left|exact L].
  rewrite listeners_of_set_exit, listeners_of_add, N. cbn.
  exact (run_single command pidFile debug restart_on_close s2).
Qed.

(** The run of restart on a child that has no exit code, up to the close
    of the child. *)
Lemma restart_run s h c st :
  wf s -> settled s ->
  process s = Some h -> children s !! h = Some c -> exitCode c = None ->
  let sent := ATask "restart" :: (if exited c then [] else [AKill h "SIGTERM"]) in
  since s (after (restart command pidFile debug) s) = sent
  /\ since s (after (restart command pidFile debug;;
                     deliver command pidFile debug (ChildExit h st)) s) = sent
  /\ since s (after (restart command pidFile debug;;
                     deliver command pidFile debug (ChildExit h st);;
                     deliver command pidFile debug (ChildClose h)) s)
     = sent ++ [ATask "start";
                ASpawn (length (children s)) "node" (node_args command debug)].
Proof.
  intros W S E L X sent.
  destruct (settled_elim _ _ _ S E L) as [_ N].
  pose proof (restart_waiting command pidFile debug _ _ _ E L X) as R.
  pose proof (wf_restart command pidFile debug s W) as W1. unfold after in W1.
  rewrite !(after_seq _ _ _ _ _ R). unfold after at 1. rewrite R in *. cbn in W1.
  set (s1 := set_children _ _) in *.
  assert (L1 : children s1 !! h = Some (add_listener ProcClose restart_on_close c)).
  { subst s1. cbn. by rewrite list_lookup_alter_eq, L. }
  destruct (exit_quiet s1 h _ st W1 L1) as (s2 & D & T2 & C2 & _).
  rewrite (after_seq _ _ _ _ _ D). unfold after at 1. rewrite D. cbn [snd].
  assert (L2 : children s2 !! h
               = Some (set_exit st (add_listener ProcClose restart_on_close c))).
  { by rewrite C2, list_lookup_alter_eq, L1. }
  rewrite (close_after_restart s2 h c st L2 N).
  pose proof (start_trace command pidFile debug (set_process None s2)) as T3.
  cbn in T3. rewrite C2, T2 in T3. subst s1. cbn in T3, T2.
  rewrite !length_alter in T3.
  repeat split.
  - by apply since_app.
  - by apply since_app.
  - apply since_app. by rewrite T3, <- app_assoc.
Qed.

End RestartRun.

(** C1: when restart runs while [process] refers to a running child
    (neither exit code nor signal code set), it sends SIGTERM to that child
    and spawns nothing: the body only sends the signal and adds, on the same
    child, the close listener; that listener is what spawns the new node
    process. Every action of any later event comes after the signal; along
    the run that reports the end and then the close of the child, nothing
    is spawned until the close, and the close runs start once. *)
Theorem restart_signals_before_spawning (command pidFile : string) (debug : value)
    (s : state) (h : nat) (c : child) :
  process s = Some h -> children s !! h = Some c ->
  exitCode c = None -> signalCode c = None ->
  let s1 := after (restart command pidFile debug) s in
  returns (restart command pidFile debug) s
  /\ since s s1 = [ATask "restart"; AKill h "SIGTERM"]
  /\ children s1 = alter (add_listener ProcClose restart_on_close) h (children s)
  /\ (forall evs, exists t,
        since s (after (deliver_all command pidFile debug evs) s1)
        = ATask "restart" :: AKill h "SIGTERM" :: t)
  /\ (forall err s',
        since s' (after (run_callback command pidFile debug restart_on_close err) s')
        = [ATask "start";
           ASpawn (length (children s')) "node" (node_args command debug)])
  /\ (wf s -> settled s -> forall st,
        since s (after (restart command pidFile debug;;
                        deliver command pidFile debug (ChildExit h st)) s)
        = [ATask "restart"; AKill h "SIGTERM"]
        /\ since s (after (restart command pidFile debug;;
                           deliver command pidFile debug (ChildExit h st);;
                           deliver command pidFile debug (ChildClose h)) s)
           = [ATask "restart"; AKill h "SIGTERM"; ATask "start";
              ASpawn (length (children s)) "node" (node_args command debug)]).
Proof.
  intros E L X G s1.
  assert (Z : exited c = false) by (unfold exited; by rewrite X, G).
  pose proof (restart_waiting command pidFile debug _ _ _ E L X) as R.
  rewrite Z in R. subst s1. unfold after at 1 2, returns. rewrite R. cbn [fst snd].
  split_and!.
  - by eexists.
  - by apply since_app.
  - done.
  - intros evs.
    destruct (extends_deliver_all command pidFile debug evs
                (after (restart command pidFile debug) s)) as [t T].
    exists t. apply since_app. rewrite T. unfold after. rewrite R. cbn.
    by rewrite <- app_assoc.
  - intros err s'. apply since_app. unfold after. rewrite on_close_spec.
    apply (start_trace command pidFile debug (set_process None s')).
  - intros W S st.
    destruct (restart_run command pidFile debug s h c st W S E L X) as (_ & A & B).
    rewrite Z in A, B. by split.
Qed.

Section PidFile.

Variables (command pidFile : string) (debug : value).


Lemma deliver_access s path mode cb rest :
  pending s = Access path mode cb :: rest ->
  deliver command pidFile debug AccessDone s =
    run_callback command pidFile debug cb (access_check path mode (fs s))
      (set_pending rest s).
Proof. intros Q. unfold deliver. mrun. by rewrite Q. Qed.

Lemma restart_pid_branch s f :
  process s = None -> pending s = [] ->
  files (fs s) !! pidFile = Some f -> readable f = true -> writable f = true ->
  (restart command pidFile debug;; deliver command pidFile debug AccessDone) s =
    (Normal tt,
     State (Some (length (children s))) (options s)
           (children s ++ [kill_helper (content f) (next_pid s)])
           (fs s) (console s) [] (S (next_pid s))
           (trace s ++ [ATask "restart";
                        ASpawn (length (children s)) "kill" [content f]])).
Proof.
  intros E Q F R W.
  rewrite (seq_normal _ _ _ _ _ (restart_absent command pidFile debug s E)).
  assert (A : access_check pidFile (Z.lor R_OK W_OK) (fs s) = None).
  { apply access_check_rw. by exists f. }
  erewrite deliver_access; [|cbn; by rewrite Q].
  cbn [fs set_pending set_trace]. rewrite A.
  erewrite on_access_ok; [|cbn; unfold read_file; by rewrite F, R].
  unfold set_children, set_process, spawned, set_pending, set_trace, kill_helper. cbn.
  by rewrite <- app_assoc.
Qed.

Lemma emit_nothing h e s :
  match children s !! h with
  | Some c => listeners_of e c = []
  | None => True
  end ->
  emit command pidFile debug h e s = (Normal tt, s).
Proof.
  unfold emit. mrun. destruct (children s !! h) as [c|]; [|done]. by intros ->.
Qed.

Lemma helper_event_step k s2 ev s' :
  helper_waits k s2 s' -> helper_event k ev ->
  exists s1, deliver command pidFile debug ev s' = (Normal tt, s1)
             /\ helper_waits k s2 s1.
Proof.
  intros (P & T & D & Q & N & c' & L & Fc & Ls) Hev.
  assert (O : forall h, k <= h -> h <> k -> children s' !! h = None).
  { intros h ? ?. apply lookup_ge_None_2. lia. }
  assert (I : helper_waits k s2 s') by (split_and!; try done; by exists c').
  destruct ev as [h st|h|h|]; cbn in Hev.
  - set (s1 := set_children (alter (set_exit st) h (children s')) s').
    exists s1. split.
    + unfold deliver.
      rewrite (seq_normal (update_child h (set_exit st)) _ s' s1 tt eq_refl).
      apply emit_nothing. subst s1. cbn. rewrite list_lookup_alter_eq.
      destruct (decide (h = k)) as [->|Nh]; [|by rewrite O].
      rewrite L. cbn. rewrite listeners_of_set_exit. unfold listeners_of. by rewrite Ls.
    + subst s1. split_and!; cbn; try done; [by rewrite length_alter|].
      destruct (decide (h = k)) as [->|Nh].
      * exists (set_exit st c'). rewrite list_lookup_alter_eq, L. by destruct st.
      * exists c'. by rewrite list_lookup_alter_ne.
  - exists s'. split; [|done]. apply emit_nothing.
    destruct (decide (h = k)) as [->|Nh]; [|by rewrite O].
    rewrite L. unfold listeners_of. by rewrite Ls.
  - exists s'. split; [|done]. apply emit_nothing.
    rewrite O; [done|lia..].
  - exists s'. split; [|done]. unfold deliver. mrun. by rewrite Q.
Qed.

Lemma helper_events k s2 evs s' :
  helper_waits k s2 s' -> Forall (helper_event k) evs ->
  exists s'', deliver_all command pidFile debug evs s' = (Normal tt, s'')
              /\ helper_waits k s2 s''.
Proof.
  intros I F. revert s' I. induction F as [|ev rest Hev F IH]; intros s' I.
  - by exists s'.
  - destruct (helper_event_step k s2 ev s' I Hev) as (s1 & D1 & I1).
    destruct (IH s1 I1) as (s'' & D2 & I2).
    exists s''. split; [|done].
    change (deliver_all command pidFile debug (ev :: rest))
      with (deliver command pidFile debug ev;; deliver_all command pidFile debug rest).
    by rewrite (seq_normal _ _ _ _ _ D1).
Qed.


Lemma helper_waits_initially s f :
  process s = None -> pending s = [] ->
  files (fs s) !! pidFile = Some f -> readable f = true -> writable f = true ->
  let s2 := after (restart command pidFile debug;; deliver command pidFile debug AccessDone) s in
  helper_waits (length (children s)) s2 s2
  /\ children s2 !! length (children s) = Some (kill_helper (content f) (next_pid s))
  /\ trace s2 = trace s ++ [ATask "restart";
                            ASpawn (length (children s)) "kill" [content f]]
  /\ fs s2 = fs s.
Proof.
  intros E Q F R W s2. subst s2. unfold after.
  rewrite (restart_pid_branch s f E Q F R W). cbn.
  rewrite lookup_fresh. split_and!; try done.
  unfold helper_waits. cbn. rewrite lookup_fresh, length_app. cbn.
  split_and!; try done; [lia|]. by eexists.
Qed.

Lemma helper_output_closes k s2 s' :
  helper_waits k s2 s' ->
  deliver command pidFile debug (ChildStdoutClose k) s' =
    match start command pidFile debug s' with
    | (Normal _, s'') => (Normal tt, s'')
    | (Throw e, s'') => (Throw e, s'')
    end.
Proof.
  intros (P & T & D & Q & N & c' & L & Fc & Ls).
  erewrite deliver_emit; [|by right|exact L].
  unfold listeners_of. rewrite Ls.
  change (omap _ [(StdoutClose, restart_on_stdout_close)])
    with [restart_on_stdout_close].
  by rewrite run_listeners_cons.
Qed.

Lemma restart_pid_error s e :
  process s = None -> pending s = [] ->
  access_check pidFile (Z.lor R_OK W_OK) (fs s) = Some e ->
  (restart command pidFile debug;; deliver command pidFile debug AccessDone) s =
    (Normal tt,
     State None (options s) (children s) (fs s)
           (console s ++ [stderr_line "No application running or PID error"])
           [] (next_pid s) (trace s ++ [ATask "restart"])).
Proof.
  intros E Q A.
  rewrite (seq_normal _ _ _ _ _ (restart_absent command pidFile debug s E)).
  erewrite deliver_access; [|cbn; by rewrite Q].
  cbn [fs set_pending set_trace]. rewrite A, on_access_error.
  unfold set_console, set_pending, set_trace. cbn. by rewrite E.
Qed.

End PidFile.



Lemma after_start_worker command pidFile debug s :
  let s' := after (start command pidFile debug) s in
  process s' = Some (length (children s))
  /\ (exists w, children s' !! length (children s) = Some w
                /\ spawnfile w = "node" /\ args w = node_args command debug)
  /\ since s s'
     = [ATask "start"; ASpawn (length (children s)) "node" (node_args command debug)].
Proof.
  intros s'. subst s'.
  destruct (start_child command pidFile debug s) as (ls & C & P).
  split_and!; [done| |by apply since_app, start_trace].
  rewrite C, lookup_fresh. by eexists.
Qed.

(** C10, as amended: when restart finds [process] null and the PID file
    passes the check, the completion of the check assigns to [process] the
    object of the process that runs kill on the content of the PID file, not
    a worker. The only listener that branch registers is on the close of the
    helper's output, and it does nothing but run start: the branch itself
    never clears [process]. So whatever is reported before that close, other
    than about a child older than the helper, [process] still refers to the
    helper; the close of its output runs start, which makes [process] refer
    to the new node process. *)
Theorem restart_keeps_kill_handle (command pidFile : string) (debug : value)
    (s : state) (f : file) :
  process s = None -> pending s = [] ->
  files (fs s) !! pidFile = Some f -> readable f = true -> writable f = true ->
  let k := length (children s) in
  let s2 := after (restart command pidFile debug;;
                   deliver command pidFile debug AccessDone) s in
  process s2 = Some k
  /\ children s2 !! k = Some (kill_helper (content f) (next_pid s))
  /\ (forall err s',
        run_callback command pidFile debug restart_on_stdout_close err s'
        = start command pidFile debug s')
  /\ forall evs, Forall (helper_event k) evs ->
       let s3 := after (deliver_all command pidFile debug evs) s2 in
       let s4 := after (deliver command pidFile debug (ChildStdoutClose k)) s3 in
       returns (deliver_all command pidFile debug evs) s2
       /\ process s3 = Some k
       /\ (exists c', children s3 !! k = Some c' /\ spawnfile c' = "kill")
       /\ process s4 = Some (S k)
       /\ (exists w, children s4 !! S k = Some w
                     /\ spawnfile w = "node" /\ args w = node_args command debug).
Proof.
  intros E Q F R W k s2.
  destruct (helper_waits_initially command pidFile debug s f E Q F R W)
    as (I & L & _ & _).
  fold s2 in I, L. fold k in I, L.
  split_and!; try done; [apply I|].
  intros evs Hevs s3 s4.
  destruct (helper_events command pidFile debug k s2 evs s2 I Hevs) as (s3' & D & I3).
  assert (s3 = s3') as -> by (subst s3; unfold after; by rewrite D).
  pose proof I3 as (P3 & _ & _ & _ & N3 & c' & L3 & F3 & _).
  destruct (after_start_worker command pidFile debug s3') as (P4 & W4 & _).
  assert (X : s4 = after (start command pidFile debug) s3').
  { subst s4. unfold after. rewrite (helper_output_closes _ _ _ _ _ _ I3).
    by destruct (start command pidFile debug s3') as [[[]|e] s'']. }
  rewrite X, <- N3. split_and!; try done.
  - unfold returns. rewrite D. by eexists.
  - by exists c'.
Qed.



(** *** Listeners are never removed *)

Lemma keeps_refl s s' : children s' = children s -> keeps_listeners s s'.
Proof. intros E h c L. exists c. by rewrite E. Qed.

Lemma keeps_trans s1 s2 s3 :
  keeps_listeners s1 s2 -> keeps_listeners s2 s3 -> keeps_listeners s1 s3.
Proof.
  intros A B h c L. destruct (A h c L) as (c2 & L2 & I2).
  destruct (B h c2 L2) as (c3 & L3 & I3). exists c3. split; [done|set_solver].
Qed.

Lemma keeps_snoc s s' x : children s' = children s ++ [x] -> keeps_listeners s s'.
Proof.
  intros E h c L. exists c. rewrite E. split; [|done].
  by apply lookup_app_l_Some.
Qed.

Lemma keeps_alter s s' f h :
  children s' = alter f h (children s) ->
  (forall c, listeners c ⊆ listeners (f c)) ->
  keeps_listeners s s'.
Proof.
  intros E I k c L. rewrite E. destruct (decide (k = h)) as [->|N].
  - exists (f c). by rewrite list_lookup_alter_eq, L.
  - exists c. by rewrite list_lookup_alter_ne.
Qed.

Section Keeps.

Variables (command buildFile pidFile : string) (debug : value).

Lemma keeps_start s : keeps_listeners s (after (start command pidFile debug) s).
Proof.
  destruct (start_child command pidFile debug s) as (ls & C & _).
  by eapply keeps_snoc.
Qed.

Lemma keeps_callback cb err s :
  keeps_listeners s (after (run_callback command pidFile debug cb err) s).
Proof.
  destruct cb.
  - by apply keeps_refl.
  - destruct err as [e|]; [by apply keeps_refl|]. unfold after.
    destruct (read_file pidFile (fs s)) as [data|e] eqn:R.
    + rewrite (on_access_ok _ _ _ _ _ R). by eapply keeps_snoc.
    + rewrite (on_access_unreadable _ _ _ _ _ R). by apply keeps_refl.
  - apply keeps_start.
  - unfold after. rewrite on_close_spec.
    apply (keeps_trans _ (set_process None s)); [by apply keeps_refl|].
    apply keeps_start.
Qed.

Lemma keeps_run_listeners cbs s :
  keeps_listeners s (after (run_listeners command pidFile debug cbs) s).
Proof.
  revert s. induction cbs as [|cb rest IH]; intros s; [by apply keeps_refl|].
  unfold after. rewrite run_listeners_cons.
  pose proof (keeps_callback cb None s) as X. unfold after in X.
  destruct (run_callback _ _ _ cb None s) as [[[]|e] s']; cbn in X; [|done].
  eapply keeps_trans; [exact X|apply IH].
Qed.

Lemma keeps_restart s : keeps_listeners s (after (restart command pidFile debug) s).
Proof.
  unfold after. destruct (process s) as [h|] eqn:E.
  - destruct (children s !! h) as [c|] eqn:L.
    + destruct (exitCode c) as [n|] eqn:X.
      * rewrite (restart_exited _ _ _ _ _ _ _ E L X).
        apply (keeps_trans _ (set_trace (trace s ++ [ATask "restart"]) s));
          [by apply keeps_refl|apply keeps_start].
      * rewrite (restart_waiting _ _ _ _ _ _ E L X).
        eapply keeps_alter; [done|]. intros c0. cbn. set_solver.
    + unfold restart, deref. mrun. rewrite E. cbn. rewrite L.
      by apply keeps_refl.
  - rewrite (restart_absent _ _ _ _ E). by apply keeps_refl.
Qed.

Lemma keeps_deliver ev s :
  keeps_listeners s (after (deliver command pidFile debug ev) s).
Proof.
  assert (E : forall h e s0, keeps_listeners s0 (after (emit command pidFile debug h e) s0)).
  { intros h e s0. unfold after, emit. mrun.
    destruct (children s0 !! h); [apply keeps_run_listeners|by apply keeps_refl]. }
  destruct ev as [h st|h|h|]; try by apply E.
  - unfold after, deliver. mrun.
    apply (keeps_trans _ (set_children (alter (set_exit st) h (children s)) s));
      [|apply E].
    eapply keeps_alter; [done|]. intros c. by destruct st.
  - unfold after, deliver. mrun.
    destruct (pending s) as [|[path mode cb] rest]; [by apply keeps_refl|]. cbn.
    apply (keeps_trans _ (set_pending rest s)); [by apply keeps_refl|].
    apply keeps_callback.
Qed.

Lemma keeps_step i s :
  keeps_listeners s (after (step command buildFile pidFile debug i) s).
Proof.
  destruct i; cbn.
  - apply keeps_start.
  - apply keeps_restart.
  - apply keeps_refl. unfold after, write_build_done, try_catch, writeFileSync. mrun.
    by destruct (write_file _ _ _).
  - apply keeps_deliver.
Qed.

Lemma wf_step i s : wf s -> wf (after (step command buildFile pidFile debug i) s).
Proof.
  destruct i; cbn.
  - apply wf_start.
  - apply wf_restart.
  - apply wf_write_build_done.
  - apply wf_deliver.
Qed.

Lemma run_invariant ins s :
  wf s ->
  wf (run command buildFile pidFile debug ins s)
  /\ keeps_listeners s (run command buildFile pidFile debug ins s).
Proof.
  revert s. induction ins as [|i rest IH]; intros s W.
  - split; [done|by apply keeps_refl].
  - cbn. destruct (IH _ (wf_step i s W)) as [W' K]. split; [done|].
    eapply keeps_trans; [apply keeps_step|exact K].
Qed.

(** The report of the end of a child that has the exit observer. *)
Lemma exit_with_observer s h c st :
  wf s -> children s !! h = Some c -> (ProcExit, start_on_exit) ∈ listeners c ->
  let s' := after (deliver command pidFile debug (ChildExit h st)) s in
  returns (deliver command pidFile debug (ChildExit h st)) s
  /\ process s' = None
  /\ exit_notice_logged s s'.
Proof.
  intros W L I s'. subst s'. unfold after, returns.
  rewrite (deliver_exit _ _ _ _ _ _ _ L).
  rewrite run_exit_listeners; [|by eapply wf_exit_listeners, wf_lookup].
  assert (N : exists cb rest, listeners_of ProcExit c = cb :: rest).
  { unfold listeners_of. clear L. induction (listeners c) as [|[e cb] l IH]; [set_solver|].
    apply elem_of_cons in I as [[= <- <-]|I]; cbn; [by eexists _, _|].
    destruct (decide (e = ProcExit)); [by eexists _, _|by apply IH]. }
  destruct N as (cb & rest & ->). cbn. split_and!; [by eexists|done|].
  by exists (length rest).
Qed.

End Keeps.

(** C6, as amended: a call of start that completes leaves exactly one
    listener on the process it spawned, the exit observer. When that process
    ends, with an exit code or by a signal, the notice is logged and
    [process] is set to null: so it is right after the call and, from a
    well-formed state, after any further tasks and events. *)
Theorem start_registers_exit_observer (command buildFile pidFile : string)
    (debug : value) (s : state) :
  returns (start command pidFile debug) s ->
  let h := length (children s) in
  let s1 := after (start command pidFile debug) s in
  (exists c, children s1 !! h = Some c /\ listeners c = [(ProcExit, start_on_exit)])
  /\ exit_observed command pidFile debug s
  /\ (wf s -> forall ins st,
        let s2 := run command buildFile pidFile debug ins s1 in
        let s3 := after (deliver command pidFile debug (ChildExit h st)) s2 in
        process s3 = None /\ exit_notice_logged s2 s3).
Proof.
  intros [a R] h s1.
  assert (L1 : exists c, children s1 !! h = Some c
                         /\ listeners c = [(ProcExit, start_on_exit)]).
  { subst s1 h. unfold after. rewrite start_spec in *.
    destruct (write_file _ _ _) as [d|e]; [|done].
    cbn. rewrite lookup_fresh. by eexists. }
  split_and!; [done| |].
  - intros st. destruct L1 as (c & L & Ls). subst s1 h.
    assert (D : after (deliver command pidFile debug (ChildExit (length (children s)) st))
                  (after (start command pidFile debug) s)
                = after (run_listeners command pidFile debug [start_on_exit])
                    (set_children
                       (alter (set_exit st) (length (children s))
                          (children (after (start command pidFile debug) s)))
                       (after (start command pidFile debug) s))).
    { unfold after at 1 5. erewrite deliver_exit; [|exact L].
      unfold listeners_of. by rewrite Ls. }
    cbv zeta. by rewrite D.
  - intros W ins st s2 s3. destruct L1 as (c & L & Ls).
    destruct (run_invariant command buildFile pidFile debug ins s1
                (wf_start command pidFile debug s W)) as [W2 K].
    destruct (K h c L) as (c2 & L2 & I2).
    destruct (exit_with_observer command pidFile debug s2 h c2 st W2 L2) as (_ & P & N).
    { apply I2. rewrite Ls. set_solver. }
    by split.
Qed.

(** ** Every reachable state is well formed *)

Theorem reachable_wf (command buildFile pidFile : string) (debug : value) (s : state) :
  reachable command buildFile pidFile debug s -> wf s.
Proof.
  induction 1 as [d n|s i R IH]; [apply wf_initial|by apply wf_step].
Qed.

(** ** The statements at concrete states

    Each statement with a hypothesis is applied to one of the example
    states, whose hypotheses hold by computation. *)

Example adaptPath_string :
  adaptPath (VString "assets/**") = Normal (VString "assets/**").
Proof. reflexivity. Qed.

Example adaptPath_number : adaptPath (VNumber (Num 7)) = Normal (VNumber (Num 7)).
Proof. reflexivity. Qed.

Example string_to_number_examples :
  string_to_number " 42 " = Num 42 /\ string_to_number "-7" = Num (-7) /\
  string_to_number "" = Num 0 /\ string_to_number "Array" = NaN /\
  string_to_number "4 2" = NaN.
Proof. repeat split. Qed.

Example running_state_eq :
  process running_state = Some 0
  /\ children running_state = [running_worker]
  /\ files (fs running_state) !! "app.pid" = Some (File "100" true true)
  /\ trace running_state = [ATask "start"; ASpawn 0 "node" ["server.js"]].
Proof. by vm_compute. Qed.

Example exited_state_eq :
  process exited_state = Some 0
  /\ children exited_state = [exited_worker]
  /\ console exited_state = []
  /\ files (fs exited_state) !! "app.pid" = Some (File "4711" true false).
Proof. by vm_compute. Qed.

(** C6, as the claim states it, fails where the PID file cannot be
    written: start throws before it registers the observer, and when the
    process it spawned ends, nothing is logged and [process] still refers to
    that process. *)
Lemma start_without_exit_observer :
  ~ exit_observed "server.js" "app.pid" VUndefined fresh_state_read_only.
Proof.
  intros H. destruct (H (Code 1)) as [P _]. vm_compute in P. discriminate P.
Qed.

Lemma restart_signals_before_spawning_witness :
  since running_state (after (restart "server.js" "app.pid" VUndefined) running_state)
  = [ATask "restart"; AKill 0 "SIGTERM"]
  /\ since running_state
       (after (restart "server.js" "app.pid" VUndefined;;
               deliver "server.js" "app.pid" VUndefined (ChildExit 0 (Signal "SIGTERM"));;
               deliver "server.js" "app.pid" VUndefined (ChildClose 0)) running_state)
     = [ATask "restart"; AKill 0 "SIGTERM"; ATask "start";
        ASpawn 1 "node" ["server.js"]].
Proof.
  destruct (restart_signals_before_spawning "server.js" "app.pid" VUndefined
              running_state 0 running_worker) as (_ & A & _ & _ & _ & B);
    [by vm_compute..|].
  split; [exact A|].
  refine (proj2 (B _ _ (Signal "SIGTERM"))); by vm_compute.
Defined.

Lemma start_writes_pid_witness :
  exists c f,
    children fresh_state !! length (children fresh_state) = None
    /\ children running_state !! length (children fresh_state) = Some c
    /\ process running_state = Some (length (children fresh_state))
    /\ pid c = next_pid fresh_state
    /\ files (fs running_state) !! "app.pid" = Some f
    /\ content f = pretty (pid c).
Proof.
  apply (start_writes_pid "server.js" "app.pid" VUndefined fresh_state running_state).
  by vm_compute.
Defined.

Lemma restart_without_pid_file_witness :
  console (after (deliver "server.js" "app.pid" VUndefined AccessDone)
             (after (restart "server.js" "app.pid" VUndefined) fresh_state_no_pid_file))
  = [stderr_line "No application running or PID error"].
Proof.
  destruct (restart_without_pid_file "server.js" "app.pid" VUndefined
              fresh_state_no_pid_file) as (_ & _ & _ & C & _);
    [by vm_compute| by vm_compute | left; by vm_compute |].
  exact C.
Defined.


Lemma start_registers_exit_observer_witness :
  exit_observed "server.js" "app.pid" VUndefined fresh_state.
Proof.
  apply (start_registers_exit_observer "server.js" "build.txt" "app.pid" VUndefined
           fresh_state).
  exists tt. by vm_compute.
Defined.

Lemma write_build_done_catches_witness :
  write_build_done "build.txt" "Tue Nov 03 2026" fresh_state_read_only
  = (Normal tt,
     set_console
       [stderr_line
          "Build file not created: Error: EACCES: permission denied, open 'build.txt'"]
       (set_trace [ATask "write-build-done"] fresh_state_read_only)).
Proof.
  destruct (write_build_done_catches "build.txt" "Tue Nov 03 2026"
              fresh_state_read_only (SystemError EACCES "open" "build.txt"))
    as (E & _); [by vm_compute|].
  exact E.
Defined.


Lemma restart_keeps_kill_handle_witness :
  process (after (deliver_all "server.js" "app.pid" VUndefined [ChildExit 0 (Code 0)])
             (after (restart "server.js" "app.pid" VUndefined;;
                     deliver "server.js" "app.pid" VUndefined AccessDone) fresh_state))
  = Some 0
  /\ children (after (restart "server.js" "app.pid" VUndefined;;
                      deliver "server.js" "app.pid" VUndefined AccessDone) fresh_state)
       !! 0 = Some (kill_helper "4711" 100).
Proof.
  destruct (restart_keeps_kill_handle "server.js" "app.pid" VUndefined fresh_state
              (File "4711" true true)) as (_ & L & _ & A); [by vm_compute..|].
  split; [|exact L].
  refine (proj1 (proj2 (A [ChildExit 0 (Code 0)] _))).
  repeat constructor.
Defined.

(** ** Further properties of the tasks of [runner] *)

Lemma write_file_error path data d e :
  write_file path data d = Throw e ->
  exists c, e = SystemError c "open" path
            /\ (files d !! path = None \/
                exists f, files d !! path = Some f /\ writable f = false).
Proof.
  unfold write_file. destruct (files d !! path) as [f|] eqn:F.
  - destruct (writable f) eqn:W; [done|]. intros [= <-]. eexists. split; [done|].
    right. by exists f.
  - destruct (refused d !! path) as [c|]; [|done]. intros [= <-].
    eexists. split; [done|by left].
Qed.

Lemma write_file_result path data d d' :
  write_file path data d = Normal d' ->
  exists f,
    files d' !! path = Some f /\ content f = data /\ writable f = true
    /\ readable f = match files d !! path with Some f0 => readable f0 | None => true end
    /\ refused d' = refused d
    /\ forall q, q <> path -> files d' !! q = files d !! q.
Proof.
  unfold write_file. destruct (files d !! path) as [f|] eqn:F.
  - destruct (writable f); [|done]. intros [= <-]. cbn. eexists.
    rewrite lookup_insert_eq. split_and!; try done.
    intros q N. by rewrite lookup_insert_ne.
  - destruct (refused d !! path); [done|]. intros [= <-]. cbn. eexists.
    rewrite lookup_insert_eq. split_and!; try done.
    intros q N. by rewrite lookup_insert_ne.
Qed.

Lemma start_normal command pidFile debug s d :
  write_file pidFile (pretty (next_pid s)) (fs s) = Normal d ->
  start command pidFile debug s =
    (Normal tt,
     State (Some (length (children s))) (node_args command debug)
           (children s ++ [Child "node" (node_args command debug) Inherit (next_pid s)
                             None None [(ProcExit, start_on_exit)]])
           d (console s) (pending s) (S (next_pid s))
           (trace s ++ [ATask "start";
                        ASpawn (length (children s)) "node" (node_args command debug)])).
Proof.
  intros W. rewrite start_spec, W.
  unfold set_children, set_fs, set_process, spawned, set_options, set_trace. cbn.
  by rewrite <- app_assoc.
Qed.

Lemma start_returns_write command pidFile debug s :
  returns (start command pidFile debug) s ->
  exists d, write_file pidFile (pretty (next_pid s)) (fs s) = Normal d.
Proof.
  unfold returns. rewrite start_spec.
  destruct (write_file _ _ _) as [d|e]; [by eexists|]. by intros [a ?].
Qed.

Lemma write_file_again path data data' d d' :
  write_file path data d = Normal d' ->
  exists d'', write_file path data' d' = Normal d''.
Proof.
  intros W. destruct (write_file_result _ _ _ _ W) as (f & F & _ & Wf & _).
  unfold write_file. rewrite F, Wf. by eexists.
Qed.

(** X2: start does not stop the worker of an earlier start. When start
    completes, a second start completes too; both node processes are then
    running and no signal was sent, while [process] and the PID file name
    the second only. *)
Theorem start_twice_leaves_first_running (command pidFile : string) (debug : value)
    (s : state) :
  returns (start command pidFile debug) s ->
  let h := length (children s) in
  let s1 := after (start command pidFile debug) s in
  let s2 := after (start command pidFile debug) s1 in
  returns (start command pidFile debug) s1
  /\ process s2 = Some (S h)
  /\ (exists a b, children s2 = children s ++ [a; b]
                  /\ pid a = next_pid s /\ pid b = S (next_pid s)
                  /\ exited a = false /\ exited b = false)
  /\ filter is_kill (since s s2) = []
  /\ exists f, files (fs s2) !! pidFile = Some f
               /\ content f = pretty (S (next_pid s))
               /\ content f <> pretty (next_pid s).
Proof.
  intros R h s1 s2.
  destruct (start_returns_write _ _ _ _ R) as [d W].
  pose proof (start_normal command pidFile debug s d W) as E1.
  assert (X1 : s1 = snd (start command pidFile debug s)) by done.
  rewrite E1 in X1. cbn [snd] in X1.
  destruct (write_file_again pidFile _ (pretty (S (next_pid s))) _ _ W) as [d2 W2].
  assert (W2' : write_file pidFile (pretty (next_pid s1)) (fs s1) = Normal d2)
    by (rewrite X1; exact W2).
  pose proof (start_normal command pidFile debug s1 d2 W2') as E2.
  assert (X2 : s2 = snd (start command pidFile debug s1)) by done.
  rewrite E2 in X2. cbn [snd] in X2. rewrite X1 in X2. cbn in X2.
  destruct (write_file_result _ _ _ _ W2) as (f & F & C & _).
  split_and!.
  - unfold returns. rewrite E2. by eexists.
  - rewrite X2. cbn. by rewrite length_app, Nat.add_1_r.
  - rewrite X2. cbn. eexists _, _. rewrite <- app_assoc. by split_and!.
  - rewrite (since_app s s2
      [ATask "start"; ASpawn h "node" (node_args command debug);
       ATask "start"; ASpawn (length (children s ++
         [Child "node" (node_args command debug) Inherit (next_pid s) None None
            [(ProcExit, start_on_exit)]])) "node" (node_args command debug)]);
      [done|]. rewrite X2. cbn. by rewrite <- app_assoc.
  - exists f. rewrite X2. cbn. split_and!; try done.
    rewrite C. intros Hp. apply (inj pretty) in Hp. lia.
Qed.

(** X3: when start throws, the exception is the file-system error of the
    write to the PID file, and it comes after the spawn: the node process
    exists and [process] refers to it, the file system is as before, and no
    listener is on the process, so that its end is not logged and leaves
    [process] as it is. *)
Theorem start_throws_after_spawn (command pidFile : string) (debug : value)
    (s : state) (e : exn) :
  fst (start command pidFile debug s) = Throw e ->
  let h := length (children s) in
  let s1 := after (start command pidFile debug) s in
  (exists c, e = SystemError c "open" pidFile)
  /\ fs s1 = fs s
  /\ process s1 = Some h
  /\ children s1 = children s ++ [Child "node" (node_args command debug) Inherit
                                    (next_pid s) None None []]
  /\ since s s1 = [ATask "start"; ASpawn h "node" (node_args command debug)]
  /\ forall st,
       let s2 := after (deliver command pidFile debug (ChildExit h st)) s1 in
       process s2 = Some h /\ console s2 = console s.
Proof.
  intros T h s1. subst s1. unfold after. rewrite start_spec in *.
  destruct (write_file _ _ _) as [d|e'] eqn:W; [done|]. cbn in T. injection T as ->.
  destruct (write_file_error _ _ _ _ W) as (c & -> & _). cbn [snd].
  split_and!; try done.
  - by eexists.
  - apply since_app. cbn. by rewrite <- app_assoc.
  - intros st. erewrite deliver_exit; [|cbn; apply lookup_fresh]. done.
Qed.

(** X4: the PID file carries the identifier from start to a later restart.
    When start completes on a PID file that was missing or readable, a
    restart that finds [process] null on the file system start left, as a
    new run of the program does, spawns kill with exactly the decimal text
    of the identifier of the process start spawned, and nothing else. *)
Theorem pid_file_round_trip (command pidFile : string) (debug : value)
    (command' : string) (debug' : value) (s s' : state) :
  returns (start command pidFile debug) s ->
  (files (fs s) !! pidFile = None
   \/ exists f0, files (fs s) !! pidFile = Some f0 /\ readable f0 = true) ->
  process s' = None -> pending s' = [] ->
  fs s' = fs (after (start command pidFile debug) s) ->
  let s2 := after (restart command' pidFile debug';;
                   deliver command' pidFile debug' AccessDone) s' in
  (exists w, children (after (start command pidFile debug) s) !! length (children s)
             = Some w /\ pid w = next_pid s)
  /\ since s' s2 = [ATask "restart";
                    ASpawn (length (children s')) "kill" [pretty (next_pid s)]]
  /\ process s2 = Some (length (children s'))
  /\ fs s2 = fs s'.
Proof.
  intros R Rd P Q F s2.
  destruct (start_returns_write _ _ _ _ R) as [d W].
  pose proof (start_normal command pidFile debug s d W) as E1.
  unfold after in F |- *. rewrite E1 in F |- *. cbn [snd fs children] in F |- *.
  destruct (write_file_result _ _ _ _ W) as (f & Ff & C & Wf & Rf & _).
  assert (Rt : readable f = true).
  { rewrite Rf. destruct Rd as [->|(f0 & -> & ?)]; done. }
  rewrite <- F in Ff.
  pose proof (restart_pid_branch command' pidFile debug' s' f P Q Ff Rt Wf) as B.
  subst s2. unfold after. rewrite B. cbn [snd]. rewrite C.
  split_and!; try done.
  - rewrite lookup_fresh. by eexists.
  - by apply since_app.
Qed.

(** X5: start needs the PID file writable, restart needs it readable and
    writable. On a PID file that is writable and not readable, start
    completes, and a restart that then finds [process] null reports the
    error and signals nothing, although the file holds the identifier. *)
Theorem write_only_pid_file (command pidFile : string) (debug : value)
    (s s' : state) (f0 : file) :
  files (fs s) !! pidFile = Some f0 -> readable f0 = false -> writable f0 = true ->
  process s' = None -> pending s' = [] ->
  fs s' = fs (after (start command pidFile debug) s) ->
  let s2 := after (restart command pidFile debug;;
                   deliver command pidFile debug AccessDone) s' in
  returns (start command pidFile debug) s
  /\ files (fs s') !! pidFile = Some (File (pretty (next_pid s)) false true)
  /\ since s' s2 = [ATask "restart"]
  /\ children s2 = children s'
  /\ console s2 = console s' ++ [stderr_line "No application running or PID error"].
Proof.
  intros F0 R0 W0 P Q F s2.
  assert (W : write_file pidFile (pretty (next_pid s)) (fs s)
              = Normal (Filesystem (<[pidFile := File (pretty (next_pid s)) false true]>
                                      (files (fs s))) (refused (fs s)))).
  { unfold write_file. by rewrite F0, W0, R0. }
  pose proof (start_normal command pidFile debug s _ W) as E1.
  unfold after in F. rewrite E1 in F. cbn [snd fs] in F.
  assert (Ff : files (fs s') !! pidFile = Some (File (pretty (next_pid s)) false true)).
  { rewrite F. cbn. by rewrite lookup_insert_eq. }
  assert (A : access_check pidFile (Z.lor R_OK W_OK) (fs s')
              = Some (SystemError EACCES "access" pidFile)).
  { unfold access_check. by rewrite Ff. }
  subst s2. unfold after.
  rewrite (restart_pid_error command pidFile debug s' _ P Q A). cbn [snd].
  split_and!; try done.
  - unfold returns. rewrite E1. by eexists.
  - by apply since_app.
Qed.

(** X8: when the write of the marker succeeds, write-build-done logs
    nothing and changes one file only: the marker then holds the text of the
    date and is writable, every other file is as before, and so are
    [process] and the child objects. *)
Theorem write_build_done_writes_marker (buildFile now : string) (s : state) (d : filesystem) :
  write_file buildFile now (fs s) = Normal d ->
  let s' := after (write_build_done buildFile now) s in
  returns (write_build_done buildFile now) s
  /\ fs s' = d
  /\ (exists f, files d !! buildFile = Some f /\ content f = now /\ writable f = true)
  /\ (forall q, q <> buildFile -> files d !! q = files (fs s) !! q)
  /\ console s' = console s
  /\ process s' = process s
  /\ children s' = children s
  /\ since s s' = [ATask "write-build-done"].
Proof.
  intros W s'. subst s'.
  assert (E : write_build_done buildFile now s
              = (Normal tt, set_fs d (set_trace (trace s ++ [ATask "write-build-done"]) s))).
  { unfold write_build_done, try_catch, writeFileSync. mrun. by rewrite W. }
  unfold after, returns. rewrite E. cbn [fst snd].
  destruct (write_file_result _ _ _ _ W) as (f & F & C & Wf & _ & _ & O).
  split_and!; try done.
  - by eexists.
  - by exists f.
  - by apply since_app.
Qed.

(** *** What holds of every child object *)

Section ChildInvariant.

Variables (command buildFile pidFile : string) (debug : value).

(** A property of child objects that the node workers and the kill helpers
    have when they are spawned, and that the report of an end and the
    registration of a listener keep. *)
Variable P : child -> Prop.
Hypothesis P_worker : forall p, P (Child "node" (node_args command debug) Inherit p None None []).
Hypothesis P_helper : forall data p, P (Child "kill" [data] Pipe p None None []).
Hypothesis P_listener : forall e cb c, P c -> P (add_listener e cb c).
Hypothesis P_exit : forall st c, P c -> P (set_exit st c).

Lemma Forall_alter_keeps (f : child -> child) (h : nat) (cs : list child) :
  (forall c, P c -> P (f c)) -> Forall P cs -> Forall P (alter f h cs).
Proof.
  intros Hf. revert h. induction cs as [|c cs IH]; intros [|h] F; cbn; try done;
    apply Forall_cons in F as [? ?]; constructor; auto.
Qed.

Lemma children_start s :
  Forall P (children s) -> Forall P (children (after (start command pidFile debug) s)).
Proof.
  intros F. unfold after. rewrite start_spec.
  destruct (write_file _ _ _); cbn; apply Forall_app; split; try done;
    constructor; try done.
  apply (P_listener ProcExit start_on_exit
           (Child "node" (node_args command debug) Inherit (next_pid s) None None [])).
  apply P_worker.
Qed.

Lemma children_callback cb err s :
  Forall P (children s) ->
  Forall P (children (after (run_callback command pidFile debug cb err) s)).
Proof.
  intros F. destruct cb.
  - done.
  - destruct err as [e|]; [done|]. unfold after.
    destruct (read_file pidFile (fs s)) as [data|e] eqn:R.
    + rewrite (on_access_ok _ _ _ _ _ R). cbn. apply Forall_app. split; [done|].
      constructor; [|done].
      apply (P_listener StdoutClose restart_on_stdout_close
               (Child "kill" [data] Pipe (next_pid s) None None [])).
      apply P_helper.
    + by rewrite (on_access_unreadable _ _ _ _ _ R).
  - by apply children_start.
  - unfold after. rewrite on_close_spec. by apply (children_start (set_process None s)).
Qed.

Lemma children_listeners cbs s :
  Forall P (children s) ->
  Forall P (children (after (run_listeners command pidFile debug cbs) s)).
Proof.
  revert s. induction cbs as [|cb rest IH]; intros s F; [done|].
  unfold after. rewrite run_listeners_cons.
  pose proof (children_callback cb None s F) as X. unfold after in X.
  destruct (run_callback _ _ _ cb None s) as [[[]|e] s']; cbn in X; [|done].
  by apply IH.
Qed.

Lemma children_restart s :
  Forall P (children s) -> Forall P (children (after (restart command pidFile debug) s)).
Proof.
  intros F. unfold after. destruct (process s) as [h|] eqn:E.
  - destruct (children s !! h) as [c|] eqn:L.
    + destruct (exitCode c) as [n|] eqn:X.
      * rewrite (restart_exited _ _ _ _ _ _ _ E L X).
        by apply (children_start (set_trace (trace s ++ [ATask "restart"]) s)).
      * rewrite (restart_waiting _ _ _ _ _ _ E L X). cbn.
        apply Forall_alter_keeps; [|done]. intros c0. apply P_listener.
    + unfold restart, deref. mrun. rewrite E. cbn. by rewrite L.
  - by rewrite (restart_absent _ _ _ _ E).
Qed.

Lemma children_deliver ev s :
  Forall P (children s) ->
  Forall P (children (after (deliver command pidFile debug ev) s)).
Proof.
  intros F.
  assert (E : forall h e s0, Forall P (children s0) ->
                Forall P (children (after (emit command pidFile debug h e) s0))).
  { intros h e s0 F0. unfold after, emit. mrun.
    destruct (children s0 !! h); [by apply children_listeners|done]. }
  destruct ev as [h st|h|h|]; try by apply E.
  - unfold after, deliver. mrun.
    apply (E h ProcExit (set_children (alter (set_exit st) h (children s)) s)). cbn.
    apply Forall_alter_keeps; [|done]. intros c. apply P_exit.
  - unfold after, deliver. mrun.
    destruct (pending s) as [|[path mode cb] rest]; [done|]. cbn.
    by apply (children_callback cb _ (set_pending rest s)).
Qed.

Lemma children_step i s :
  Forall P (children s) ->
  Forall P (children (after (step command buildFile pidFile debug i) s)).
Proof.
  intros F. destruct i; cbn.
  - by apply children_start.
  - by apply children_restart.
  - unfold after, write_build_done, try_catch, writeFileSync. mrun.
    by destruct (write_file _ _ _).
  - by apply children_deliver.
Qed.

Lemma children_reachable s :
  reachable command buildFile pidFile debug s -> Forall P (children s).
Proof.
  induction 1 as [d n|s i R IH]; [constructor|by apply children_step].
Qed.

End ChildInvariant.


(** X1: in every state that the tasks and the events lead to from the
    initial one, [process] is null or refers to a child object that exists;
    every child is a node worker with the arguments of start or a kill
    helper; every listener is one of the three that the tasks register, on
    the event it is registered for; and every pending check is the one of
    restart. *)
Theorem reachable_state_invariant (command buildFile pidFile : string) (debug : value)
    (s : state) :
  reachable command buildFile pidFile debug s ->
  (forall h, process s = Some h -> is_Some (children s !! h))
  /\ Forall (runner_child command debug) (children s)
  /\ (forall h c e cb,
        children s !! h = Some c -> (e, cb) ∈ listeners c ->
        (e = ProcExit /\ cb = start_on_exit)
        \/ (e = ProcClose /\ cb = restart_on_close)
        \/ (e = StdoutClose /\ cb = restart_on_stdout_close))
  /\ (forall r, r ∈ pending s -> req_callback r = restart_on_access).
Proof.
  intros R. pose proof (reachable_wf _ _ _ _ _ R) as W.
  pose proof (wf_elim _ W) as (A & B & C). split_and!.
  - intros h E. rewrite E in C. by apply lookup_lt_is_Some_2.
  - apply (children_reachable command buildFile pidFile debug
             (runner_child command debug));
      [intros p; by left
      |intros data p; by right
      |intros e cb c [X|X]; [left|right]; exact X
      |intros st c [X|X]; [left|right]; by destruct st
      |exact R].
  - intros h c e cb L I. pose proof (wf_lookup _ _ _ W L) as Wc.
    unfold wf_child in Wc. rewrite forallb_True, Forall_forall in Wc.
    specialize (Wc _ I). destruct e, cb; cbn in Wc; try done; auto.
  - intros r I. rewrite forallb_True, Forall_forall in B.
    specialize (B r I). by apply bool_decide_unpack in B.
Qed.

Lemma read_file_error path d e :
  read_file path d = Throw e -> exists c, e = SystemError c "open" path.
Proof.
  unfold read_file. destruct (files d !! path) as [f|]; [|by intros [= <-]; eexists].
  destruct (readable f); [done|]. intros [= <-]. by eexists.
Qed.

Section Throws.

Variables (command buildFile pidFile : string) (debug : value).

Lemma start_throws s e :
  fst (start command pidFile debug s) = Throw e ->
  exists c, e = SystemError c "open" pidFile.
Proof.
  rewrite start_spec. destruct (write_file _ _ _) as [d|e'] eqn:W; [done|].
  intros [= <-]. destruct (write_file_error _ _ _ _ W) as (c & -> & _). by eexists.
Qed.

Lemma callback_throws cb err s e :
  fst (run_callback command pidFile debug cb err s) = Throw e ->
  exists c, e = SystemError c "open" pidFile.
Proof.
  destruct cb.
  - done.
  - destruct err as [e'|]; [done|].
    destruct (read_file pidFile (fs s)) as [data|e'] eqn:R.
    + by rewrite (on_access_ok _ _ _ _ _ R).
    + rewrite (on_access_unreadable _ _ _ _ _ R). intros [= <-].
      by apply read_file_error in R.
  - apply start_throws.
  - rewrite on_close_spec. apply start_throws.
Qed.

Lemma listeners_throw cbs s e :
  fst (run_listeners command pidFile debug cbs s) = Throw e ->
  exists c, e = SystemError c "open" pidFile.
Proof.
  revert s. induction cbs as [|cb rest IH]; intros s; [done|].
  rewrite run_listeners_cons.
  pose proof (callback_throws cb None s) as X.
  destruct (run_callback _ _ _ cb None s) as [[[]|e'] s']; [apply IH|].
  intros [= <-]. by apply X.
Qed.

Lemma step_throws i s e :
  wf s ->
  fst (step command buildFile pidFile debug i s) = Throw e ->
  exists c, e = SystemError c "open" pidFile.
Proof.
  intros W. pose proof (wf_elim _ W) as (_ & _ & C).
  assert (E : forall h em s0,
            fst (emit command pidFile debug h em s0) = Throw e ->
            exists c, e = SystemError c "open" pidFile).
  { intros h em s0. unfold emit. mrun.
    destruct (children s0 !! h); [apply listeners_throw|done]. }
  destruct i as [| |now|ev]; cbn.
  - apply start_throws.
  - destruct (process s) as [h|] eqn:P.
    + destruct (lookup_lt_is_Some_2 _ _ C) as [c L].
      destruct (exitCode c) as [n|] eqn:X.
      * rewrite (restart_exited _ _ _ _ _ _ _ P L X). apply start_throws.
      * by rewrite (restart_waiting _ _ _ _ _ _ P L X).
    + by rewrite (restart_absent _ _ _ _ P).
  - intros T. destruct (write_build_done_returns buildFile now s) as [a R].
    by rewrite R in T.
  - destruct ev as [h st|h|h|].
    + unfold deliver. mrun. apply E.
    + apply E.
    + apply E.
    + unfold deliver. mrun. destruct (pending s) as [|[path mode cb] rest]; [done|].
      cbn. apply callback_throws.
Qed.

End Throws.

(** X9: no task and no listener of [runner] reads a property of null or
    of an object that has none: from every reachable state, whatever is run
    or reported, the only exception that can escape is the file-system error
    of opening the PID file. The task write-build-done never throws. *)
Theorem runner_throws_only_file_errors (command buildFile pidFile : string)
    (debug : value) (s : state) (i : input) (e : exn) :
  reachable command buildFile pidFile debug s ->
  fst (step command buildFile pidFile debug i s) = Throw e ->
  (exists c, e = SystemError c "open" pidFile)
  /\ forall now, i <> RunWriteBuildDone now.
Proof.
  intros R T. split.
  - eapply step_throws; [by eapply reachable_wf|exact T].
  - intros now ->. cbn in T.
    destruct (write_build_done_returns buildFile now s) as [a X]. by rewrite X in T.
Qed.

Lemma write_file_writable path data d f :
  files d !! path = Some f -> writable f = true ->
  exists d', write_file path data d = Normal d'.
Proof. intros F W. unfold write_file. rewrite F, W. by eexists. Qed.

(** X6: restart does not remember that it is already waiting. Two calls
    of restart on a running worker, before its close is reported, both
    signal it and both leave a close listener; the close then runs start
    twice, and two node processes run, of which [process] names the second
    only. *)
Theorem restart_twice_spawns_two (command pidFile : string) (debug : value)
    (s : state) (h : nat) (c : child) (f : file) (st : exit_status) :
  wf s -> settled s ->
  process s = Some h -> children s !! h = Some c ->
  exitCode c = None -> signalCode c = None ->
  files (fs s) !! pidFile = Some f -> writable f = true ->
  let n := length (children s) in
  let s' := after (restart command pidFile debug;;
                   restart command pidFile debug;;
                   deliver command pidFile debug (ChildExit h st);;
                   deliver command pidFile debug (ChildClose h)) s in
  since s s' = [ATask "restart"; AKill h "SIGTERM";
                ATask "restart"; AKill h "SIGTERM";
                ATask "start"; ASpawn n "node" (node_args command debug);
                ATask "start"; ASpawn (S n) "node" (node_args command debug)]
  /\ process s' = Some (S n)
  /\ exists a b, children s' !! n = Some a /\ children s' !! S n = Some b
                 /\ spawnfile a = "node" /\ spawnfile b = "node"
                 /\ exited a = false /\ exited b = false.
Proof.
  intros W Se E L X G F Wf n s'.
  assert (Z : exited c = false) by (unfold exited; by rewrite X, G).
  destruct (settled_elim _ _ _ Se E L) as [_ N].
  (* first restart *)
  pose proof (restart_waiting command pidFile debug _ _ _ E L X) as R1.
  rewrite Z in R1.
  pose proof (wf_restart command pidFile debug s W) as W1.
  unfold after in W1. rewrite R1 in W1. cbn [snd] in W1.
  set (sA := set_children _ _) in R1, W1.
  assert (LA : children sA !! h = Some (add_listener ProcClose restart_on_close c)).
  { subst sA. cbn. by rewrite list_lookup_alter_eq, L. }
  (* second restart *)
  pose proof (restart_waiting command pidFile debug sA h _ E LA X) as R2.
  change (exited (add_listener ProcClose restart_on_close c)) with (exited c) in R2.
  rewrite Z in R2.
  pose proof (wf_restart command pidFile debug sA W1) as W2.
  unfold after in W2. rewrite R2 in W2. cbn [snd] in W2.
  set (sB := set_children _ _) in R2, W2.
  assert (LB : children sB !! h
               = Some (add_listener ProcClose restart_on_close
                         (add_listener ProcClose restart_on_close c))).
  { change (children sB)
      with (alter (add_listener ProcClose restart_on_close) h (children sA)).
    by rewrite list_lookup_alter_eq, LA. }
  (* the end of the worker is reported *)
  destruct (exit_quiet command pidFile debug sB h _ st W2 LB)
    as (sC & D & TC & CC & FC & _).
  assert (LC : children sC !! h
               = Some (set_exit st (add_listener ProcClose restart_on_close
                                      (add_listener ProcClose restart_on_close c)))).
  { by rewrite CC, list_lookup_alter_eq, LB. }
  assert (NC : length (children sC) = n).
  { rewrite CC. subst sB sA. cbn. by rewrite !length_alter. }
  (* its close is reported *)
  assert (F1 : files (fs sC) !! pidFile = Some f) by (by rewrite FC).
  destruct (write_file_writable pidFile (pretty (next_pid sC)) _ _ F1 Wf) as [d1 Wr1].
  pose proof (start_normal command pidFile debug (set_process None sC) d1 Wr1) as S1.
  set (sD := State _ _ _ d1 _ _ _ _) in S1.
  destruct (write_file_again pidFile _ (pretty (next_pid sD)) _ _ Wr1) as [d2 Wr2].
  pose proof (start_normal command pidFile debug (set_process None sD) d2 Wr2) as S2.
  set (sE := State _ _ _ d2 _ _ _ _) in S2.
  assert (C : deliver command pidFile debug (ChildClose h) sC = (Normal tt, sE)).
  { erewrite deliver_emit; [|by left|exact LC].
    assert (LL : listeners_of ProcClose
                   (set_exit st (add_listener ProcClose restart_on_close
                                   (add_listener ProcClose restart_on_close c)))
                 = [restart_on_close; restart_on_close]).
    { by rewrite listeners_of_set_exit, !listeners_of_add, N. }
    rewrite LL.
    rewrite run_listeners_cons, on_close_spec, S1.
    rewrite run_listeners_cons, on_close_spec, S2. done. }
  subst s'.
  rewrite (after_seq _ _ _ _ _ R1), (after_seq _ _ _ _ _ R2), (after_seq _ _ _ _ _ D).
  unfold after. rewrite C. cbn [snd].
  assert (ND : length (children sD) = S n).
  { subst sD. cbn. rewrite length_app, NC. cbn. lia. }
  split_and!.
  - apply since_app. subst sE. cbn [trace children set_process]. rewrite ND.
    subst sD. cbn [trace children set_process]. rewrite NC, TC.
    subst sB sA. cbn. by rewrite <- !app_assoc.
  - subst sE. cbn [process children set_process]. by rewrite ND.
  - subst sE. cbn [children set_process]. rewrite <- ND.
    exists (Child "node" (node_args command debug) Inherit (next_pid sC) None None
              [(ProcExit, start_on_exit)]).
    eexists. split_and!; [|apply lookup_fresh|done..].
    rewrite lookup_app_l; [|rewrite ND; lia].
    subst sD. cbn [children set_process]. rewrite <- NC. apply lookup_fresh.
Qed.

(** X7: the exit observer clears [process] whichever child it refers to.
    After two calls of start, the end of the first worker sets [process] to
    null while the second worker runs; restart then goes by the PID file,
    which names the second worker, and spawns kill for it. *)
Theorem older_exit_clears_newer (command pidFile : string) (debug : value)
    (s : state) (st : exit_status) :
  returns (start command pidFile debug) s ->
  pending s = [] ->
  (files (fs s) !! pidFile = None
   \/ exists f0, files (fs s) !! pidFile = Some f0 /\ readable f0 = true) ->
  let h := length (children s) in
  let s2 := after (start command pidFile debug) (after (start command pidFile debug) s) in
  let s3 := after (deliver command pidFile debug (ChildExit h st)) s2 in
  process s2 = Some (S h)
  /\ process s3 = None
  /\ (exists b, children s3 !! S h = Some b /\ exited b = false
                /\ pid b = S (next_pid s))
  /\ since s3 (after (restart command pidFile debug;;
                      deliver command pidFile debug AccessDone) s3)
     = [ATask "restart"; ASpawn (S (S h)) "kill" [pretty (S (next_pid s))]].
Proof.
  intros R Q Rd h s2 s3.
  destruct (start_returns_write _ _ _ _ R) as [d W].
  pose proof (start_normal command pidFile debug s d W) as E1.
  set (s1 := State _ _ _ d _ _ _ _) in E1.
  destruct (write_file_again pidFile _ (pretty (S (next_pid s))) _ _ W) as [d2 W2].
  pose proof (start_normal command pidFile debug s1 d2 W2) as E2.
  set (s2' := State _ _ _ d2 _ _ _ _) in E2.
  assert (X2 : s2 = s2') by (subst s2; unfold after; rewrite E1; cbn [snd]; by rewrite E2).
  set (a := Child "node" (node_args command debug) Inherit (next_pid s) None None
              [(ProcExit, start_on_exit)]).
  set (b := Child "node" (node_args command debug) Inherit (S (next_pid s)) None None
              [(ProcExit, start_on_exit)]).
  assert (C2 : children s2' = children s ++ [a; b]).
  { subst s2' s1. cbn. by rewrite <- app_assoc. }
  assert (La : children s2' !! h = Some a).
  { rewrite C2. apply list_lookup_middle. done. }
  assert (D : deliver command pidFile debug (ChildExit h st) s2'
              = (Normal tt,
                 set_process None
                   (set_console (console s ++ [stdout_line "*** Process exited ***"])
                      (set_children (alter (set_exit st) h (children s2')) s2')))).
  { rewrite (deliver_exit _ _ _ _ _ _ _ La). done. }
  assert (X3 : s3 = snd (deliver command pidFile debug (ChildExit h st) s2'))
    by (subst s3; by rewrite X2).
  rewrite D in X3. cbn [snd] in X3.
  destruct (write_file_result _ _ _ _ W) as (f1 & F1 & _ & _ & R1 & _).
  destruct (write_file_result _ _ _ _ W2) as (f2 & F2 & Ct & Wt & R2 & _).
  cbn [fs] in R2. rewrite F1 in R2.
  assert (Rt : readable f2 = true).
  { rewrite R2, R1. destruct Rd as [->|(f0 & -> & ?)]; done. }
  assert (P3 : process s3 = None) by (by rewrite X3).
  assert (Q3 : pending s3 = []) by (by rewrite X3).
  assert (F3 : files (fs s3) !! pidFile = Some f2) by (by rewrite X3).
  assert (N3 : length (children s3) = S (S h)).
  { rewrite X3. cbn [children set_process set_console set_children].
    rewrite length_alter, C2, length_app. cbn. lia. }
  split_and!.
  - rewrite X2. subst s2' s1. cbn. by rewrite length_app, Nat.add_1_r.
  - done.
  - exists b. rewrite X3. cbn [children set_process set_console set_children].
    rewrite list_lookup_alter_ne by lia.
    split_and!; try done. rewrite C2.
    replace (S h) with (length (children s ++ [a])) by (rewrite length_app; cbn; lia).
    replace (children s ++ [a; b]) with ((children s ++ [a]) ++ [b])
      by (by rewrite <- app_assoc).
    apply lookup_fresh.
  - unfold after at 1.
    rewrite (restart_pid_branch command pidFile debug s3 f2 P3 Q3 F3 Rt Wt).
    cbn [snd]. rewrite N3, Ct. by apply since_app.
Qed.

(** ** Task test *)

Section TestTask.

Variables (jsTestsPath dir : string).

Lemma test_spec w :
  test jsTestsPath dir w =
    (Normal tt,
     Coverage
       (spawned "istanbul"
          ["cover"; "--dir"; dir; "_mocha"; "--"; "-R"; "spec"; jsTestsPath] Inherit
          (set_trace (trace (node w) ++ [ATask "test"]) (node w)))
       (Some (length (children (node w))))
       (closers w ++ [length (children (node w))])).
Proof. done. Qed.

Lemma test_on_close_spec data s :
  test_on_close dir data s =
    (Normal tt,
     spawned "remap-istanbul"
       ["-i"; (dir ++ "/coverage.json")%string; "-t"; "html";
        "-o"; (dir ++ "/lcov-report")%string] Inherit
       (spawned "remap-istanbul"
          ["-i"; (dir ++ "/coverage.json")%string; "-t"; "lcovonly";
           "-o"; (dir ++ "/lcov.info")%string] Inherit s)).
Proof. done. Qed.

Lemma run_closers_spec h data l s :
  NoDup l ->
  run_closers dir h data l s =
    if bool_decide (h ∈ l) then test_on_close dir data s else (Normal tt, s).
Proof.
  intros N. revert s. induction N as [|x l Nx N IH]; intros s; [done|].
  cbn [run_closers]. destruct (Nat.eqb_spec x h) as [->|Ne].
  - rewrite bool_decide_eq_true_2 by set_solver.
    unfold mbind, M_bind. rewrite test_on_close_spec, IH.
    by rewrite bool_decide_eq_false_2.
  - unfold mbind, M_bind, mret, M_ret. rewrite IH.
    destruct (decide (h ∈ l)) as [I|I].
    + by rewrite !bool_decide_eq_true_2 by set_solver.
    + rewrite (bool_decide_eq_false_2 (h ∈ l)) by done.
      rewrite bool_decide_eq_false_2; [done|].
      intros Hx. apply elem_of_cons in Hx as [Hx|Hx]; [by subst|done].
Qed.

Lemma test_valid_spec w :
  test_valid w <->
  NoDup (closers w)
  /\ forall h, h ∈ closers w ->
       exists c, children (node w) !! h = Some c /\ spawnfile c = "istanbul".
Proof.
  unfold test_valid. rewrite andb_True, bool_decide_spec, forallb_True, Forall_forall.
  split; intros [N V]; (split; [done|]); intros h I; specialize (V h I).
  - apply bool_decide_unpack in V. destruct (children (node w) !! h) as [c|]; [|done].
    exists c. split; [done|]. by injection V.
  - apply bool_decide_pack. by destruct V as (c & -> & <-).
Qed.

Lemma test_valid_step i w : test_valid w -> test_valid (test_step jsTestsPath dir i w).
Proof.
  rewrite !test_valid_spec. intros [N V]. destruct i as [|h data]; cbn [test_step].
  - rewrite test_spec. cbn [snd]. split; cbn [closers node].
    + apply NoDup_app. split_and!; [done| |apply NoDup_singleton].
      intros x I Hx. apply list_elem_of_singleton in Hx. subst x.
      destruct (V _ I) as (c & L & _). apply lookup_lt_Some in L. lia.
    + intros x Hx. apply elem_of_app in Hx as [I|Hx]; cbn.
      * destruct (V _ I) as (c & L & F). exists c. split; [|done].
        by apply lookup_app_l_Some.
      * apply list_elem_of_singleton in Hx. subst x. rewrite lookup_fresh. by eexists.
  - unfold test_close. rewrite (run_closers_spec _ _ _ _ N).
    destruct (bool_decide (h ∈ closers w)); [|by split].
    rewrite test_on_close_spec. split; cbn [closers node snd]; [done|].
    intros x I. destruct (V _ I) as (c & L & F). exists c. split; [|done].
    cbn. rewrite <- app_assoc. by apply lookup_app_l_Some.
Qed.

Lemma test_valid_run ins w : test_valid w -> test_valid (test_run jsTestsPath dir ins w).
Proof.
  revert w. induction ins as [|i ins IH]; intros w V; [done|].
  cbn. apply IH. by apply test_valid_step.
Qed.

End TestTask.

(** What task test does by itself: one spawn, of istanbul; the close
    listener is registered on that child, which [istanbul] then names. *)
Lemma test_spawns_istanbul (jsTestsPath dir : string) (w : coverage) :
  let h := length (children (node w)) in
  let w' := snd (test jsTestsPath dir w) in
  fst (test jsTestsPath dir w) = Normal tt
  /\ since (node w) (node w')
     = [ATask "test";
        ASpawn h "istanbul"
          ["cover"; "--dir"; dir; "_mocha"; "--"; "-R"; "spec"; jsTestsPath]]
  /\ istanbul w' = Some h
  /\ closers w' = closers w ++ [h].
Proof.
  intros h w'. subst h w'. rewrite test_spec. cbn [fst snd].
  split_and!; try done. apply since_app. cbn. by rewrite <- app_assoc.
Qed.

(** X10: one run of task test, up to the close of the process it spawned:
    the task spawns istanbul alone, on the streams of the parent, told to
    cover the mocha run of [jsTestsPath] and to write into
    [coverageReportsDirectory]; nothing is remapped before the close; the
    close, whatever the exit code, spawns remap-istanbul for lcovonly and
    then for html, both reading coverage.json of that same directory.
    Closes registered by earlier runs do not add to it. *)
Theorem test_run_then_close (jsTestsPath dir : string) (w : coverage) (data : option Z) :
  test_valid w ->
  let h := length (children (node w)) in
  let w1 := snd (test jsTestsPath dir w) in
  let w2 := snd (test_close dir h data w1) in
  since (node w) (node w1)
  = [ATask "test";
     ASpawn h "istanbul"
       ["cover"; "--dir"; dir; "_mocha"; "--"; "-R"; "spec"; jsTestsPath]]
  /\ (exists c, children (node w1) !! h = Some c /\ stdio c = Inherit)
  /\ since (node w1) (node w2)
     = [ASpawn (S h) "remap-istanbul"
          ["-i"; (dir ++ "/coverage.json")%string; "-t"; "lcovonly";
           "-o"; (dir ++ "/lcov.info")%string];
        ASpawn (S (S h)) "remap-istanbul"
          ["-i"; (dir ++ "/coverage.json")%string; "-t"; "html";
           "-o"; (dir ++ "/lcov-report")%string]]
  /\ test_valid w2.
Proof.
  intros V h w1 w2.
  pose proof (test_valid_step jsTestsPath dir RunTest w V) as V1.
  pose proof (test_valid_step jsTestsPath dir (Closed h data)
                (test_step jsTestsPath dir RunTest w) V1) as V2.
  cbn [test_step] in V1, V2. fold w1 in V1, V2. fold w2 in V2.
  pose proof V1 as [N1 _]%test_valid_spec.
  assert (I : h ∈ closers w1).
  { subst w1. rewrite test_spec. cbn. apply elem_of_app. right. by constructor. }
  split_and!; [| | |done].
  - subst w1. rewrite test_spec. cbn [snd node]. apply since_app. cbn.
    by rewrite <- app_assoc.
  - subst w1 h. rewrite test_spec. cbn [snd node]. cbn. rewrite lookup_fresh.
    by eexists.
  - subst w2. unfold test_close. rewrite (run_closers_spec _ _ _ _ _ N1).
    rewrite bool_decide_eq_true_2 by done. rewrite test_on_close_spec.
    cbn [snd node]. apply since_app.
    assert (L : length (children (node w1)) = S h).
    { subst w1 h. rewrite test_spec. cbn. rewrite length_app. cbn. lia. }
    cbn. rewrite <- app_assoc, length_app, L. cbn. by rewrite Nat.add_1_r.
Qed.

(** X11: when the close of a child is reported, the listener of test runs
    once if the child is one that test spawned, and not at all otherwise.
    It spawns remap-istanbul twice, for the lcovonly report and then for the
    html report, both reading coverage.json of the directory given to
    istanbul; it does so whatever exit code istanbul ended with, and does
    not throw. *)
Theorem test_close_remaps (jsTestsPath dir : string) (w : coverage)
    (h : nat) (data : option Z) :
  test_valid w ->
  let n := length (children (node w)) in
  let w' := snd (test_close dir h data w) in
  fst (test_close dir h data w) = Normal tt
  /\ closers w' = closers w
  /\ since (node w) (node w')
     = if bool_decide (h ∈ closers w)
       then [ASpawn n "remap-istanbul"
               ["-i"; (dir ++ "/coverage.json")%string; "-t"; "lcovonly";
                "-o"; (dir ++ "/lcov.info")%string];
             ASpawn (S n) "remap-istanbul"
               ["-i"; (dir ++ "/coverage.json")%string; "-t"; "html";
                "-o"; (dir ++ "/lcov-report")%string]]
       else [].
Proof.
  intros [N V]%test_valid_spec n w'. subst n w'. unfold test_close.
  rewrite (run_closers_spec _ _ _ _ _ N).
  destruct (bool_decide (h ∈ closers w)).
  - rewrite test_on_close_spec. cbn [fst snd node closers]. split_and!; try done.
    apply since_app. cbn. rewrite <- app_assoc, length_app. cbn.
    by rewrite Nat.add_1_r.
  - cbn [fst snd node closers]. split_and!; try done.
    apply since_app. by rewrite app_nil_r.
Qed.

(** X12: however task test is run and closes are reported, starting where
    test has registered nothing, the children it is registered on are
    istanbul processes, each registered once; so the close of a child that
    runs remap-istanbul changes nothing, and the reports of one run are
    remapped once. *)
Theorem test_registers_istanbul_only (jsTestsPath dir : string) (s : state)
    (ins : list test_input) :
  let w := test_run jsTestsPath dir ins (test_initial s) in
  test_valid w
  /\ forall h c data,
       children (node w) !! h = Some c -> spawnfile c = "remap-istanbul" ->
       test_close dir h data w = (Normal tt, w).
Proof.
  intros w.
  assert (V : test_valid w).
  { by apply test_valid_run. }
  split; [done|]. intros h c data L F. apply test_valid_spec in V as [N V].
  unfold test_close. rewrite (run_closers_spec _ _ _ _ _ N).
  rewrite bool_decide_eq_false_2; [by destruct w|].
  intros I. destruct (V _ I) as (c' & L' & F'). rewrite L in L'. injection L' as <-.
  by rewrite F in F'.
Qed.

(** ** Tasks of [typescript] and [assets] *)

(** The replacement turns every backslash into a slash, leaves every other
    character in its place, keeps the length, and changes nothing when
    applied again. *)
Lemma replace_backslashes_spec (text : string) :
  String.length (replace_backslashes text) = String.length text
  /\ (forall i a, String.get i text = Some a ->
        String.get i (replace_backslashes text)
        = Some (if Ascii.eqb a "\" then "/"%char else a))
  /\ (forall i, String.get i (replace_backslashes text) <> Some "\"%char)
  /\ replace_backslashes (replace_backslashes text) = replace_backslashes text.
Proof.
  induction text as [|b text (IH1 & IH2 & IH3 & IH4)]; [by split_and!; try by intros []|].
  cbn [replace_backslashes String.length]. split_and!.
  - by rewrite IH1.
  - intros [|i] a; cbn; [by intros [= ->]|apply IH2].
  - intros [|i]; cbn; [|apply IH3].
    destruct (Ascii.eqb_spec b "\"%char) as [->|N]; [done|]. by intros [= ->].
  - rewrite IH4. f_equal.
    destruct (Ascii.eqb_spec b "\"%char) as [->|N]; [done|].
    by destruct (Ascii.eqb_spec b "\"%char).
Qed.

Section TypescriptTasks.

Variables (sourceDirectory tsConfigFile outputDirectory outputTypingsDirectory : string).
Variable relative : string -> string -> string.

Lemma build_reuses t p :
  tsProject t = Some p ->
  snd (build_typescript sourceDirectory tsConfigFile outputDirectory
         outputTypingsDirectory relative t) = t
  /\ stream_projects
       (result (fst (build_typescript sourceDirectory tsConfigFile outputDirectory
                       outputTypingsDirectory relative t))) = [p; p].
Proof. intros E. unfold build_typescript. by rewrite E. Qed.

Lemma builds_reuse n t p :
  tsProject t = Some p ->
  snd (builds sourceDirectory tsConfigFile outputDirectory outputTypingsDirectory
         relative n t) = t
  /\ length (fst (builds sourceDirectory tsConfigFile outputDirectory
                    outputTypingsDirectory relative n t)) = n
  /\ Forall (fun g => stream_projects (result g) = [p; p])
       (fst (builds sourceDirectory tsConfigFile outputDirectory
               outputTypingsDirectory relative n t)).
Proof.
  intros E. induction n as [|n (IH1 & IH2 & IH3)]; [by split_and!|].
  cbn [builds]. destruct (build_reuses t p E) as [B1 B2].
  destruct (build_typescript _ _ _ _ _ t) as [g t']. cbn [fst snd] in B1, B2. subst t'.
  destruct (builds _ _ _ _ _ n t) as [gs t']. cbn [fst snd length] in *.
  split_and!; [done|by rewrite IH2|by constructor].
Qed.

Lemma build_creates t :
  tsProject t = None ->
  exists g,
    build_typescript sourceDirectory tsConfigFile outputDirectory
      outputTypingsDirectory relative t
    = (g, TsState (Some (length (created t)))
            (created t ++ [(tsConfigFile, sourceDirectory)]))
    /\ stream_projects (result g) = [length (created t); length (created t)].
Proof. intros E. unfold build_typescript. rewrite E. by eexists. Qed.

End TypescriptTasks.

(** X13: the stream that build-typescript returns writes its source maps
    with one source root, and that source root has no backslash, whatever
    [path.relative] returns and whether the project is new or reused: it is
    the relative path from the output directory to the source directory
    with every backslash turned into a slash and every other character in
    its place. *)
Theorem build_typescript_source_root
    (sourceDirectory tsConfigFile outputDirectory outputTypingsDirectory : string)
    (relative : string -> string -> string) (t : ts_state) :
  exists sourceRoot,
    stream_source_roots
      (result (fst (build_typescript sourceDirectory tsConfigFile outputDirectory
                      outputTypingsDirectory relative t)))
    = [sourceRoot]
    /\ (forall i, String.get i sourceRoot <> Some "\"%char)
    /\ String.length sourceRoot
       = String.length (relative outputDirectory sourceDirectory)
    /\ (forall i a,
          String.get i (relative outputDirectory sourceDirectory) = Some a ->
          String.get i sourceRoot = Some (if Ascii.eqb a "\" then "/"%char else a)).
Proof.
  destruct (replace_backslashes_spec (relative outputDirectory sourceDirectory))
    as (A & B & C & _).
  exists (replace_backslashes (relative outputDirectory sourceDirectory)).
  split_and!; try done.
  unfold build_typescript. by destruct (tsProject t).
Qed.

(** X14: build-typescript creates the compiler project at its first run
    and never again. After any number of runs, at least one, [tsProject]
    holds one project, every run has compiled with that same project, and
    [createProject] was called once if [tsProject] was unset before, with
    [tsConfigFile] and with [sourceDirectory] as [outDir], and not at all
    otherwise. *)
Theorem typescript_project_created_once
    (sourceDirectory tsConfigFile outputDirectory outputTypingsDirectory : string)
    (relative : string -> string -> string) (n : nat) (t : ts_state) :
  let r := builds sourceDirectory tsConfigFile outputDirectory outputTypingsDirectory
             relative (S n) t in
  length (fst r) = S n
  /\ (exists p, tsProject (snd r) = Some p
                /\ Forall (fun g => stream_projects (result g) = [p; p]) (fst r))
  /\ created (snd r)
     = match tsProject t with
       | Some _ => created t
       | None => created t ++ [(tsConfigFile, sourceDirectory)]
       end.
Proof.
  intros r. subst r. destruct (tsProject t) as [p|] eqn:E.
  - destruct (builds_reuse sourceDirectory tsConfigFile outputDirectory
                outputTypingsDirectory relative (S n) t p E) as (B1 & B2 & B3).
    rewrite B1. split_and!; [done|by exists p|done].
  - cbn [builds].
    destruct (build_creates sourceDirectory tsConfigFile outputDirectory
                outputTypingsDirectory relative t E) as (g & -> & G).
    set (t1 := TsState _ _).
    destruct (builds_reuse sourceDirectory tsConfigFile outputDirectory
                outputTypingsDirectory relative n t1 (length (created t)) eq_refl)
      as (B1 & B2 & B3).
    destruct (builds _ _ _ _ _ n t1) as [gs t']. cbn [fst snd length] in *. subst t'.
    split_and!; [by rewrite B2| |done].
    exists (length (created t)). split; [done|]. by constructor.
Qed.

(** X15: watch-assets hands to [plugins.watch] the very value it was given
    as [assetsPath], whatever that value is: a string is not wrapped into an
    array and no value is turned down by the task itself, so the task throws
    when [plugins.watch] throws for that value and not otherwise. It is also
    the value that copy-assets reads. *)
Theorem watch_assets_hands_path_to_plugin {A : Type}
    (watch : value -> watch_options -> string -> completion A)
    (assetsPath : value) (outputDirectory : string) :
  watch_assets watch assetsPath
  = watch assetsPath (WatchOptions true true true) "copy-assets"
  /\ stream_sources (result (copy_assets assetsPath outputDirectory)) = [assetsPath].
Proof.
  unfold watch_assets.
  assert (E : adaptPath assetsPath = Normal assetsPath) by (by destruct assetsPath).
  by rewrite E.
Qed.

(** ** The further properties at concrete states *)

Lemma reachable_state_invariant_witness :
  Forall (runner_child "server.js" VUndefined) (children running_state).
Proof.
  refine (proj1 (proj2 (reachable_state_invariant "server.js" "build.txt" "app.pid"
                          VUndefined running_state _))).
  exact (reachable_step "server.js" "build.txt" "app.pid" VUndefined fresh_state RunStart
           (reachable_initial "server.js" "build.txt" "app.pid" VUndefined
              disk_with_pid_file 100)).
Defined.

Lemma start_twice_leaves_first_running_witness :
  process (after (start "server.js" "app.pid" VUndefined) running_state) = Some 1.
Proof.
  refine (proj1 (proj2 (start_twice_leaves_first_running "server.js" "app.pid" VUndefined
                          fresh_state _))).
  exists tt. by vm_compute.
Defined.

Lemma start_throws_after_spawn_witness :
  process (after (start "server.js" "app.pid" VUndefined) fresh_state_read_only) = Some 0
  /\ fs (after (start "server.js" "app.pid" VUndefined) fresh_state_read_only)
     = fs fresh_state_read_only.
Proof.
  destruct (start_throws_after_spawn "server.js" "app.pid" VUndefined
              fresh_state_read_only (SystemError EACCES "open" "app.pid"))
    as (_ & F & P & _); [by vm_compute|].
  by split.
Defined.

Lemma pid_file_round_trip_witness :
  since next_run_state
    (after (restart "server.js" "app.pid" VUndefined;;
            deliver "server.js" "app.pid" VUndefined AccessDone) next_run_state)
  = [ATask "restart"; ASpawn 0 "kill" ["100"]].
Proof.
  refine (proj1 (proj2 (pid_file_round_trip "server.js" "app.pid" VUndefined
                          "server.js" VUndefined fresh_state next_run_state
                          _ _ _ _ _))).
  - exists tt. by vm_compute.
  - right. exists (File "4711" true true). by vm_compute.
  - by vm_compute.
  - by vm_compute.
  - by vm_compute.
Defined.

Lemma write_only_pid_file_witness :
  console (after (restart "server.js" "app.pid" VUndefined;;
                  deliver "server.js" "app.pid" VUndefined AccessDone)
             next_run_write_only)
  = [stderr_line "No application running or PID error"].
Proof.
  refine (proj2 (proj2 (proj2 (proj2
            (write_only_pid_file "server.js" "app.pid" VUndefined
               fresh_state_write_only next_run_write_only (File "4711" false true)
               _ _ _ _ _ _)))));
    by vm_compute.
Defined.

Lemma restart_twice_spawns_two_witness :
  process (after (restart "server.js" "app.pid" VUndefined;;
                  restart "server.js" "app.pid" VUndefined;;
                  deliver "server.js" "app.pid" VUndefined (ChildExit 0 (Signal "SIGTERM"));;
                  deliver "server.js" "app.pid" VUndefined (ChildClose 0)) running_state)
  = Some 2.
Proof.
  refine (proj1 (proj2 (restart_twice_spawns_two "server.js" "app.pid" VUndefined
                          running_state 0 running_worker (File "100" true true)
                          (Signal "SIGTERM") _ _ _ _ _ _ _ _)));
    by vm_compute.
Defined.

Lemma older_exit_clears_newer_witness :
  process (after (deliver "server.js" "app.pid" VUndefined (ChildExit 0 (Code 0)))
             (after (start "server.js" "app.pid" VUndefined) running_state))
  = None.
Proof.
  refine (proj1 (proj2 (older_exit_clears_newer "server.js" "app.pid" VUndefined
                          fresh_state (Code 0) _ _ _))).
  - exists tt. by vm_compute.
  - by vm_compute.
  - right. exists (File "4711" true true). by vm_compute.
Defined.

Lemma write_build_done_writes_marker_witness :
  files (fs (after (write_build_done "build.txt" "Tue Nov 03 2026") fresh_state))
    !! "app.pid" = Some (File "4711" true true).
Proof.
  destruct (write_build_done_writes_marker "build.txt" "Tue Nov 03 2026" fresh_state
              (Filesystem (<["build.txt" := File "Tue Nov 03 2026" true true]>
                             (files disk_with_pid_file)) ∅))
    as (_ & F & _ & O & _); [by vm_compute|].
  rewrite F. by rewrite (O "app.pid").
Defined.

Lemma runner_throws_only_file_errors_witness :
  exists c, SystemError EACCES "open" "app.pid" = SystemError c "open" "app.pid".
Proof.
  refine (proj1 (runner_throws_only_file_errors "server.js" "build.txt" "app.pid"
                   VUndefined fresh_state_read_only RunStart
                   (SystemError EACCES "open" "app.pid") _ _)).
  - apply reachable_initial.
  - by vm_compute.
Defined.

Lemma test_close_remaps_witness :
  since (node testing_world)
    (node (snd (test_close "coverage" 0 (Some 1%Z) testing_world)))
  = [ASpawn 1 "remap-istanbul"
       ["-i"; "coverage/coverage.json"; "-t"; "lcovonly"; "-o"; "coverage/lcov.info"];
     ASpawn 2 "remap-istanbul"
       ["-i"; "coverage/coverage.json"; "-t"; "html"; "-o"; "coverage/lcov-report"]].
Proof.
  refine (proj2 (proj2 (test_close_remaps "test/**/*.js" "coverage" testing_world 0
                          (Some 1%Z) _))).
  by vm_compute.
Defined.

Lemma test_run_then_close_witness :
  since (node (test_initial fresh_state)) (node testing_world)
  = [ATask "test";
     ASpawn 0 "istanbul"
       ["cover"; "--dir"; "coverage"; "_mocha"; "--"; "-R"; "spec"; "test/**/*.js"]].
Proof.
  refine (proj1 (test_run_then_close "test/**/*.js" "coverage" (test_initial fresh_state)
                   None _)).
  by vm_compute.
Defined.

(** ** Where the claims as stated fail *)

(** restart on a child that a signal has ended: the exit code is null, so
    restart takes the branch of a running child; [kill] sends nothing to the
    ended process, and start is left to the close listener. *)
Lemma restart_on_signalled_handle (command pidFile : string) (debug : value)
    (s : state) (h : nat) (c : child) (g : string) :
  process s = Some h -> children s !! h = Some c ->
  exitCode c = None -> signalCode c = Some g ->
  since s (after (restart command pidFile debug) s) = [ATask "restart"]
  /\ children (after (restart command pidFile debug) s)
     = alter (add_listener ProcClose restart_on_close) h (children s).
Proof.
  intros E L X G. unfold after.
  rewrite (restart_waiting command pidFile debug s h c E L X).
  assert (Z : exited c = true) by (unfold exited; by rewrite X, G).
  rewrite Z. split; [by apply since_app|done].
Qed.





(** C10, as the claim states it, fails when an older worker is still
    running: in a state that meets the conditions of the branch, the
    completion of the check makes [process] refer to the kill helper; the
    end of the worker that the helper kills is reported to the exit observer
    of that worker, which sets [process] to null before start is entered. *)
Lemma older_worker_clears_kill_handle :
  reachable "server.js" "build.txt" "app.pid" VUndefined second_worker_state
  /\ process second_worker_state = None
  /\ pending second_worker_state = []
  /\ access_check "app.pid" (Z.lor R_OK W_OK) (fs second_worker_state) = None
  /\ process (after (restart "server.js" "app.pid" VUndefined;;
                     deliver "server.js" "app.pid" VUndefined AccessDone)
                second_worker_state) = Some 2
  /\ children (after (restart "server.js" "app.pid" VUndefined;;
                      deliver "server.js" "app.pid" VUndefined AccessDone)
                 second_worker_state) !! 2 = Some (kill_helper "101" 102)
  /\ process (after (restart "server.js" "app.pid" VUndefined;;
                     deliver "server.js" "app.pid" VUndefined AccessDone;;
                     deliver "server.js" "app.pid" VUndefined
                       (ChildExit 1 (Signal "SIGTERM")))
                second_worker_state) = None
  /\ starts (since second_worker_state
               (after (restart "server.js" "app.pid" VUndefined;;
                       deliver "server.js" "app.pid" VUndefined AccessDone;;
                       deliver "server.js" "app.pid" VUndefined
                         (ChildExit 1 (Signal "SIGTERM")))
                  second_worker_state)) = 0.
Proof.
  split_and!; [|by vm_compute..].
  exact (reachable_step "server.js" "build.txt" "app.pid" VUndefined _
           (Report (ChildClose 0))
           (reachable_step "server.js" "build.txt" "app.pid" VUndefined _
              (Report (ChildExit 0 (Code 0)))
              (reachable_step "server.js" "build.txt" "app.pid" VUndefined _ RunStart
                 (reachable_step "server.js" "build.txt" "app.pid" VUndefined
                    fresh_state RunStart
                    (reachable_initial "server.js" "build.txt" "app.pid" VUndefined
                       disk_with_pid_file 100))))).
Qed.
